(** * Voice payment backend (backend.py): amount extraction and the
    Razorpay order / verification handlers

    The development embeds three functions of [backend.py]:
    - [extract_amount] (lines 46-93), a pure function from the transcribed
      text to an optional integer;
    - [create_order] (lines 143-187) and [verify_payment] (lines 189-243),
      the two Flask handlers that talk to the Razorpay client.

    Modelling conventions.
    - A Python [str] is a [string]; a character is its code point, and the
      model covers the code points U+0000..U+00FF (one [ascii] each).  The
      character classes below are Python's Unicode classes restricted to
      that range.
    - A Python [int] is a [Z] (unbounded).
    - A Python [float] is kept by its exact value ([Q]) or as one of the
      three non-finite values (the two zeros are one value); truth value,
      comparison with [0] and [int()] are exact on it.  The quotient
      computed by [/] is rounded to the nearest double, as Python does.
    - A value that came out of [json.loads] is a [json]; a [dict] is an
      association list in insertion order whose first binding of a key is
      the one a lookup finds.
    - The Razorpay client is an external collaborator: its three calls are
      the fields of a [Gateway], each returning a value or raising.
    - A handler runs in a small state-and-exception monad over a [machine]:
      the module-level bindings of the process and the log of provider
      calls made so far.
    - A handler is given [request.json] already parsed ([data]); a body
      that Flask cannot parse is not covered.  The [print] calls are kept
      only for the expressions they evaluate, which can raise. *)

From Stdlib Require Import ZArith QArith Qabs List String Ascii Bool Lia.
From Stdlib Require Import DecimalString.
Import ListNotations.

Local Open Scope string_scope.
Local Open Scope Z_scope.

(** ** Characters and strings *)

Module Str.

Definition code (c : ascii) : N := N_of_ascii c.

Definition in_range (lo hi : N) (c : ascii) : bool :=
  ((lo <=? code c) && (code c <=? hi))%N.

(** [\d] of [re] on a [str] pattern: the decimal digits (category Nd);
    below U+0100 these are '0'..'9'. *)
Definition isdigit (c : ascii) : bool := in_range 48 57 c.

(** [str.isspace] and [\s]: TAB..CR, FS..US, SPACE, NEL, NBSP. *)
Definition isspace (c : ascii) : bool :=
  in_range 9 13 c || in_range 28 32 c || (code c =? 133)%N || (code c =? 160)%N.

(** [\w]: alphanumeric characters and the underscore.  Below U+0100 the
    alphanumerics are the ASCII digits and letters, the ordinal
    indicators, the micro sign, the superscript digits, the vulgar
    fractions and the Latin-1 letters. *)
Definition isword (c : ascii) : bool :=
  in_range 48 57 c || in_range 65 90 c || in_range 97 122 c
  || (code c =? 95)%N
  || (code c =? 170)%N || (code c =? 178)%N || (code c =? 179)%N
  || (code c =? 181)%N || (code c =? 185)%N || (code c =? 186)%N
  || in_range 188 190 c
  || in_range 192 214 c || in_range 216 246 c || in_range 248 255 c.

(** [str.lower] on one character: 'A'..'Z' and the Latin-1 capitals
    (U+00C0..U+00DE but the multiplication sign) move up by 32. *)
Definition lower_char (c : ascii) : ascii :=
  if in_range 65 90 c || in_range 192 214 c || in_range 216 222 c
  then ascii_of_N (code c + 32)
  else c.

Fixpoint lower (s : string) : string :=
  match s with
  | EmptyString => EmptyString
  | String c r => String (lower_char c) (lower r)
  end.

Fixpoint filter (p : ascii -> bool) (s : string) : string :=
  match s with
  | EmptyString => EmptyString
  | String c r => if p c then String c (filter p r) else filter p r
  end.

Fixpoint has (p : ascii -> bool) (s : string) : bool :=
  match s with
  | EmptyString => false
  | String c r => p c || has p r
  end.

Fixpoint take_while (p : ascii -> bool) (s : string) : string :=
  match s with
  | EmptyString => EmptyString
  | String c r => if p c then String c (take_while p r) else EmptyString
  end.

Fixpoint drop_while (p : ascii -> bool) (s : string) : string :=
  match s with
  | EmptyString => EmptyString
  | String c r => if p c then drop_while p r else s
  end.

Definition is_empty (s : string) : bool :=
  match s with EmptyString => true | _ => false end.

(** A run that has been read to its end is reported unless it is empty. *)
Definition close (run : string) : list string :=
  if is_empty run then [] else [run].

(** The maximal runs of characters satisfying [p], left to right; [run]
    is the run being read. *)
Fixpoint runs_from (p : ascii -> bool) (run text : string) : list string :=
  match text with
  | EmptyString => close run
  | String c rest =>
      if p c then runs_from p (run ++ String c EmptyString) rest
      else close run ++ runs_from p EmptyString rest
  end.

Definition runs (p : ascii -> bool) (text : string) : list string :=
  runs_from p EmptyString text.

(** [str.split()] with no argument: the maximal runs of non-whitespace. *)
Definition split (text : string) : list string :=
  runs (fun c => negb (isspace c)) text.

End Str.

(** ** Exceptions *)

Inductive exn_class : Type :=
| SignatureVerificationError
| AttributeError
| TypeError
| KeyError
| ValueError
| OverflowError
| ProviderError.

(** An exception: its class and [str(e)]. *)
Record exn : Type := { cls : exn_class; msg : string }.

Inductive result (A : Type) : Type :=
| Ok (a : A)
| Raise (e : exn).
Arguments Ok {A} a.
Arguments Raise {A} e.

(** ** extract_amount *)

(** [re.findall(r'\d+', text)]: all maximal digit runs, in order. *)
Definition re_findall_digits (text : string) : list string :=
  Str.runs Str.isdigit text.

Definition digit_value (c : ascii) : Z := Z.of_N (Str.code c) - 48.

(** The value of a string of decimal digits: the digits are read left to
    right into an accumulator. *)
Fixpoint py_int_from (acc : Z) (s : string) : Z :=
  match s with
  | EmptyString => acc
  | String c r => py_int_from (acc * 10 + digit_value c) r
  end.

(** The longest numeral that [int()] converts:
    [sys.get_int_max_str_digits()], which is 4300 unless the interpreter
    is told otherwise (Python 3.11 and later). *)
Definition int_max_str_digits : nat := 4300.

Definition decimal_of_nat (n : nat) : string :=
  NilZero.string_of_uint (Nat.to_uint n).

(** [int(s)] on a string of decimal digits.  A numeral with more digits
    than the limit raises [ValueError]. *)
Definition py_int (s : string) : result Z :=
  if (int_max_str_digits <? String.length s)%nat
  then Raise {| cls := ValueError;
                msg := "Exceeds the limit (4300 digits) for integer string conversion: value has "
                       ++ decimal_of_nat (String.length s)
                       ++ " digits; use sys.set_int_max_str_digits() to increase the limit" |}
  else Ok (py_int_from 0 s).

(** [re.sub(r'[^\w\s]', '', word)]: every character that is neither a word
    character nor whitespace is deleted. *)
Definition re_sub_punct (word : string) : string :=
  Str.filter (fun c => Str.isword c || Str.isspace c) word.

Definition words_to_numbers : list (string * Z) :=
  [ ("zero", 0); ("one", 1); ("two", 2); ("three", 3); ("four", 4);
    ("five", 5); ("six", 6); ("seven", 7); ("eight", 8); ("nine", 9);
    ("ten", 10); ("eleven", 11); ("twelve", 12); ("thirteen", 13);
    ("fourteen", 14); ("fifteen", 15); ("sixteen", 16); ("seventeen", 17);
    ("eighteen", 18); ("nineteen", 19); ("twenty", 20); ("thirty", 30);
    ("forty", 40); ("fifty", 50); ("sixty", 60); ("seventy", 70);
    ("eighty", 80); ("ninety", 90); ("hundred", 100); ("thousand", 1000) ].

(** [d.get(k)] / [k in d] / [d[k]] on a dict keyed by strings. *)
Fixpoint dict_get {V : Type} (d : list (string * V)) (k : string) : option V :=
  match d with
  | [] => None
  | (k', v) :: d' => if String.eqb k k' then Some v else dict_get d' k
  end.

(** The state of the loop of lines 76-90: [(total, current)]. *)
Definition loop_state : Type := Z * Z.

(** One iteration of the loop body (lines 78-90). *)
Definition loop_body (st : loop_state) (word : string) : loop_state :=
  let '(total, current) := st in
  let word := re_sub_punct word in
  match dict_get words_to_numbers word with
  | Some num =>
      if num =? 100 then
        (total, if current =? 0 then 100 else current * 100)
      else if num =? 1000 then
        let current := (if current =? 0 then 1 else current) * 1000 in
        (total + current, 0)
      else
        (total, current + num)
  | None => (total, current)
  end.

(** Lines 72-93: the word path, reached when the text has no digit. *)
Definition word_amount (text : string) : option Z :=
  let words := Str.split (Str.lower text) in
  let '(total, current) := fold_left loop_body words (0, 0) in
  let total := total + current in
  if 0 <? total then Some total else None.

(** Lines 57-59, with what follows them as a parameter.  The function
    returns an amount or [None], or raises what [int()] raises. *)
Definition extract_amount_with (word_path : string -> option Z)
    (text : string) : result (option Z) :=
  match re_findall_digits text with
  | d :: _ =>
      match py_int d with
      | Ok n => Ok (Some n)
      | Raise e => Raise e
      end
  | [] => Ok (word_path text)
  end.

Definition extract_amount (text : string) : result (option Z) :=
  extract_amount_with word_amount text.

(** *** The parser as the specification words it

    Section 4.1 of the specification, kept apart from the code above so
    that the two can be compared. *)

Module ParserSpec.

(** "The first maximal run of decimal digit characters". *)
Definition first_digit_run (text : string) : string :=
  Str.take_while Str.isdigit
    (Str.drop_while (fun c => negb (Str.isdigit c)) text).

(** The value of a numeral in base 10: each digit weighs ten to the
    number of digits after it. *)
Fixpoint base10_value (s : string) : Z :=
  match s with
  | EmptyString => 0
  | String c r => digit_value c * 10 ^ Z.of_nat (String.length r) + base10_value r
  end.

(** The number-word lexicon: units 0-9, teens, tens, and the two
    magnitude words. *)
Inductive token_class : Type :=
| Small (value : Z)
| Hundred
| Thousand
| Unrecognized.

Definition small_words : list (string * Z) :=
  [ ("zero", 0); ("one", 1); ("two", 2); ("three", 3); ("four", 4);
    ("five", 5); ("six", 6); ("seven", 7); ("eight", 8); ("nine", 9);
    ("ten", 10); ("eleven", 11); ("twelve", 12); ("thirteen", 13);
    ("fourteen", 14); ("fifteen", 15); ("sixteen", 16); ("seventeen", 17);
    ("eighteen", 18); ("nineteen", 19); ("twenty", 20); ("thirty", 30);
    ("forty", 40); ("fifty", 50); ("sixty", 60); ("seventy", 70);
    ("eighty", 80); ("ninety", 90) ].

Definition classify (token : string) : token_class :=
  if String.eqb token "hundred" then Hundred
  else if String.eqb token "thousand" then Thousand
  else match dict_get small_words token with
       | Some v => Small v
       | None => Unrecognized
       end.

(** The fold step on [(total, current)]:
    a unit, teen or ten word adds its value to [current];
    "hundred" multiplies [current] by 100, a lone "hundred" giving 100;
    "thousand" multiplies [current] (an empty one counting as 1) by 1000,
    adds the product to [total] and resets [current];
    any other token is ignored. *)
Definition step (st : Z * Z) (token : string) : Z * Z :=
  let '(total, current) := st in
  match classify token with
  | Small v => (total, current + v)
  | Hundred => (total, if current =? 0 then 100 else current * 100)
  | Thousand =>
      (total + (if current =? 0 then 1 else current) * 1000, 0)
  | Unrecognized => (total, current)
  end.

(** Lowercase the text, take its whitespace-separated tokens and strip
    the punctuation from each. *)
Definition tokens (text : string) : list string :=
  map re_sub_punct (Str.split (Str.lower text)).

Definition fold_words (text : string) : Z * Z :=
  fold_left step (tokens text) (0, 0).

Definition positive_or_none (v : Z) : option Z :=
  if 0 <? v then Some v else None.

End ParserSpec.

(** ** Python values, exceptions and the handler monad *)

Inductive pyfloat : Type :=
| FFinite (q : Q)
| FNaN
| FPosInf
| FNegInf.

#[warnings="-register-all"] Inductive json : Type :=
| JNull
| JBool (b : bool)
| JInt (n : Z)
| JFloat (f : pyfloat)
| JStr (s : string)
| JArr (l : list json)
| JObj (d : list (string * json)).

Definition dict : Type := list (string * json).

Definition type_name (v : json) : string :=
  match v with
  | JNull => "NoneType"
  | JBool _ => "bool"
  | JInt _ => "int"
  | JFloat _ => "float"
  | JStr _ => "str"
  | JArr _ => "list"
  | JObj _ => "dict"
  end.

(** [data.get(k, default)]; only a dict has the method. *)
Definition py_get (data : json) (k : string) (default : json) : result json :=
  match data with
  | JObj d =>
      Ok (match dict_get d k with Some v => v | None => default end)
  | _ =>
      Raise {| cls := AttributeError;
               msg := "'" ++ type_name data ++ "' object has no attribute 'get'" |}
  end.

(** [d[k]] on a dict. *)
Definition py_getitem (d : dict) (k : string) : result json :=
  match dict_get d k with
  | Some v => Ok v
  | None => Raise {| cls := KeyError; msg := "'" ++ k ++ "'" |}
  end.

(** [bool(v)]. *)
Definition py_truthy (v : json) : bool :=
  match v with
  | JNull => false
  | JBool b => b
  | JInt n => negb (n =? 0)
  | JFloat (FFinite q) => negb (Qeq_bool q 0)
  | JFloat _ => true
  | JStr s => negb (Str.is_empty s)
  | JArr l => match l with [] => false | _ => true end
  | JObj d => match d with [] => false | _ => true end
  end.

(** [v <= 0]. *)
Definition py_le_zero (v : json) : result bool :=
  match v with
  | JBool b => Ok (negb b)
  | JInt n => Ok (n <=? 0)
  | JFloat (FFinite q) => Ok (Qle_bool q 0)
  | JFloat FNaN => Ok false
  | JFloat FPosInf => Ok false
  | JFloat FNegInf => Ok true
  | _ =>
      Raise {| cls := TypeError;
               msg := "'<=' not supported between instances of '"
                      ++ type_name v ++ "' and 'int'" |}
  end.

(** [int(q)] on a finite float: truncation toward zero. *)
Definition trunc (q : Q) : Z := Z.quot (Qnum q) (Zpos (Qden q)).

(** [int(v)] on a bool, an int or a float.  In [create_order] no other
    value reaches it: [v <= 0] has raised before. *)
Definition py_int_of (v : json) : result Z :=
  match v with
  | JBool b => Ok (if b then 1 else 0)
  | JInt n => Ok n
  | JFloat (FFinite q) => Ok (trunc q)
  | JFloat FNaN =>
      Raise {| cls := ValueError; msg := "cannot convert float NaN to integer" |}
  | JFloat _ =>
      Raise {| cls := OverflowError;
               msg := "cannot convert float infinity to integer" |}
  | _ =>
      Raise {| cls := TypeError;
               msg := "int() argument must be a string, a bytes-like object or a real number, not '"
                      ++ type_name v ++ "'" |}
  end.

(** *** Division

    [/] gives a float: the double (binary64) nearest to the exact
    quotient, a tie going to the even mantissa.  The doubles are the
    multiples [m * 2^t * 2^-1074] with [m < 2^53] and [0 <= t] that stay
    below [2^1024]; the quotient is counted in units of [2^-1074]. *)

(** The integer nearest to [n / d], ties to even ([0 <= n], [0 < d]). *)
Definition round_half_even (n d : Z) : Z :=
  let f := n / d in
  let twice_rest := 2 * (n mod d) in
  if twice_rest <? d then f
  else if d <? twice_rest then f + 1
  else if Z.even f then f else f + 1.

(** The exponent [t] of the spacing of the doubles around [N / d] units:
    [N / d] lies in [[2^e, 2^(e+1))] and the spacing is [2^(e-52)], or one
    unit below [2^53] units. *)
Definition ulp_exponent (N d : Z) : Z :=
  let l := Z.log2 N - Z.log2 d in
  let e := if d * 2 ^ l <=? N then l else l - 1 in
  Z.max (e - 52) 0.

(** The double nearest to [n / d], or [None] when the nearest multiple is
    [2^1024] or more. *)
Definition round_double_pos (n d : positive) : option Q :=
  let N := Zpos n * 2 ^ 1074 in
  let t := ulp_exponent N (Zpos d) in
  let m := round_half_even N (Zpos d * 2 ^ t) in
  if 2 ^ 2098 <=? m * 2 ^ t then None
  else Some (Qred (Qmake (m * 2 ^ t) (2 ^ 1074)%positive)).

Definition round_double (q : Q) : option Q :=
  match Qnum q with
  | 0 => Some 0%Q
  | Zpos n => round_double_pos n (Qden q)
  | Zneg n => option_map Qopp (round_double_pos n (Qden q))
  end.

(** [n / 100] on an int: the quotient rounded to a double, or
    [OverflowError] when it is too large for one. *)
Definition int_truediv_100 (n : Z) : result json :=
  match round_double (n # 100) with
  | Some r => Ok (JFloat (FFinite r))
  | None =>
      Raise {| cls := OverflowError;
               msg := "integer division result too large for a float" |}
  end.

(** [x / 100] on a float: the quotient rounded to a double; a float
    division does not raise on overflow, it gives an infinity. *)
Definition float_truediv_100 (f : pyfloat) : pyfloat :=
  match f with
  | FFinite q =>
      match round_double (q / 100) with
      | Some r => FFinite r
      | None => if Qle_bool 0 q then FPosInf else FNegInf
      end
  | _ => f
  end.

(** [v / 100]. *)
Definition py_truediv_100 (v : json) : result json :=
  match v with
  | JBool b => int_truediv_100 (if b then 1 else 0)
  | JInt n => int_truediv_100 n
  | JFloat f => Ok (JFloat (float_truediv_100 f))
  | _ =>
      Raise {| cls := TypeError;
               msg := "unsupported operand type(s) for /: '"
                      ++ type_name v ++ "' and 'int'" |}
  end.

(** [all(l)]. *)
Definition py_all (l : list json) : bool := forallb py_truthy l.

(** The module-level bindings of the process that the handlers read.  They
    are bound once, when the module is loaded ([os.getenv] gives [None]
    for an unset variable). *)
Record process_state : Type := {
  RAZORPAY_KEY_ID : option string;
  RAZORPAY_KEY_SECRET : option string
}.

(** A call made on [razorpay_client]. *)
Inductive provider_call : Type :=
| OrderCreate (data : json)
| VerifyPaymentSignature (params : json)
| PaymentFetch (payment_id : json).

(** The Razorpay client.  What a call answers may depend on the calls made
    before it (the provider keeps its own records), so each call is given
    the log. *)
Record Gateway : Type := {
  order_create : list provider_call -> json -> result dict;
  verify_payment_signature : list provider_call -> json -> result unit;
  payment_fetch : list provider_call -> json -> result dict
}.

Record machine : Type := {
  globals : process_state;
  provider_log : list provider_call
}.

Definition M (A : Type) : Type := machine -> result A * machine.

Definition ret {A : Type} (a : A) : M A := fun m => (Ok a, m).

Definition raise {A : Type} (e : exn) : M A := fun m => (Raise e, m).

Definition bind {A B : Type} (c : M A) (k : A -> M B) : M B :=
  fun m =>
    match c m with
    | (Ok a, m') => k a m'
    | (Raise e, m') => (Raise e, m')
    end.

Notation "x <- c ;; k" := (bind c (fun x => k))
  (at level 61, c at next level, right associativity).

Definition lift {A : Type} (r : result A) : M A := fun m => (r, m).

(** [try: body except <classes>: handler]; an exception of another class
    goes on. *)
Definition try_except {A : Type} (body : M A) (catches : exn -> bool)
    (handler : exn -> M A) : M A :=
  fun m =>
    match body m with
    | (Ok a, m') => (Ok a, m')
    | (Raise e, m') => if catches e then handler e m' else (Raise e, m')
    end.

Definition read_global {A : Type} (f : process_state -> A) : M A :=
  fun m => (Ok (f (globals m)), m).

Definition log_call (c : provider_call) (m : machine) : machine :=
  {| globals := globals m; provider_log := provider_log m ++ [c] |}.

Definition razorpay_order_create (gw : Gateway) (data : json) : M dict :=
  fun m => (order_create gw (provider_log m) data, log_call (OrderCreate data) m).

Definition razorpay_verify_payment_signature (gw : Gateway) (params : json)
    : M unit :=
  fun m => (verify_payment_signature gw (provider_log m) params,
            log_call (VerifyPaymentSignature params) m).

Definition razorpay_payment_fetch (gw : Gateway) (payment_id : json) : M dict :=
  fun m => (payment_fetch gw (provider_log m) payment_id,
            log_call (PaymentFetch payment_id) m).

(** ** The handlers *)

Record response : Type := { body : json; status : Z }.

(** [jsonify(v)] returned alone is a 200 response; [jsonify(v), code]
    carries the code. *)
Definition jsonify (v : json) : response := {| body := v; status := 200 |}.
Definition jsonify_status (v : json) (code : Z) : response :=
  {| body := v; status := code |}.

Definition json_of_option_string (o : option string) : json :=
  match o with Some s => JStr s | None => JNull end.

(** [except Exception as e: return jsonify({'error': str(e)}), 500]. *)
Definition internal_error (e : exn) : M response :=
  ret (jsonify_status (JObj [("error", JStr (msg e))]) 500).

(** The guard of line 159, [not amount or amount <= 0]. *)
Definition amount_guard (amount : json) : result bool :=
  if negb (py_truthy amount) then Ok true else py_le_zero amount.

(** The dict of lines 163-171. *)
Definition order_data (minor_units : Z) (upi_id : json) : json :=
  JObj [ ("amount", JInt minor_units);
         ("currency", JStr "INR");
         ("payment_capture", JInt 1);
         ("notes", JObj [ ("upi_id", upi_id);
                          ("payment_method", JStr "voice_payment") ]) ].

Definition invalid_amount_response : response :=
  jsonify_status (JObj [("error", JStr "Invalid amount")]) 400.

(** Lines 155-183, the body of the [try]. *)
Definition create_order_body (gw : Gateway) (data : json) : M response :=
  amount <- lift (py_get data "amount" JNull) ;;
  upi_id <- lift (py_get data "upi_id" (JStr "Not provided")) ;;
  invalid <- lift (amount_guard amount) ;;
  if (invalid : bool) then ret invalid_amount_response
  else
    rupees <- lift (py_int_of amount) ;;
    order <- razorpay_order_create gw (order_data (rupees * 100) upi_id) ;;
    _ <- lift (py_getitem order "id") ;;
    order_id <- lift (py_getitem order "id") ;;
    order_amount <- lift (py_getitem order "amount") ;;
    order_currency <- lift (py_getitem order "currency") ;;
    key_id <- read_global RAZORPAY_KEY_ID ;;
    ret (jsonify (JObj [ ("success", JBool true);
                         ("order_id", order_id);
                         ("amount", order_amount);
                         ("currency", order_currency);
                         ("razorpay_key_id", json_of_option_string key_id) ])).

Definition create_order (gw : Gateway) (data : json) : M response :=
  try_except (create_order_body gw data) (fun _ => true) internal_error.

Definition params_dict (order_id payment_id signature : json) : json :=
  JObj [ ("razorpay_order_id", order_id);
         ("razorpay_payment_id", payment_id);
         ("razorpay_signature", signature) ].

Definition is_signature_error (e : exn) : bool :=
  match cls e with SignatureVerificationError => true | _ => false end.

Definition missing_details_response : response :=
  jsonify_status (JObj [("error", JStr "Missing payment details")]) 400.

Definition signature_failed_response : response :=
  jsonify_status
    (JObj [ ("success", JBool false);
            ("message", JStr "Payment verification failed - Invalid signature") ])
    400.

Definition verified_response (payment_id amount payment_status : json)
    : response :=
  jsonify (JObj [ ("success", JBool true);
                  ("message", JStr "Payment verified successfully");
                  ("payment_id", payment_id);
                  ("amount", amount);
                  ("status", payment_status) ]).

(** Lines 218-232, the body of the inner [try].  The two [print] calls
    evaluate [payment['amount']/100] and [payment['status']] before the
    response is built. *)
Definition verify_payment_inner (gw : Gateway)
    (order_id payment_id signature : json) : M response :=
  _ <- razorpay_verify_payment_signature gw
         (params_dict order_id payment_id signature) ;;
  payment <- razorpay_payment_fetch gw payment_id ;;
  printed_amount <- lift (py_getitem payment "amount") ;;
  _ <- lift (py_truediv_100 printed_amount) ;;
  _ <- lift (py_getitem payment "status") ;;
  paise <- lift (py_getitem payment "amount") ;;
  rupees <- lift (py_truediv_100 paise) ;;
  payment_status <- lift (py_getitem payment "status") ;;
  ret (verified_response payment_id rupees payment_status).

(** Lines 201-239, the body of the outer [try]. *)
Definition verify_payment_body (gw : Gateway) (data : json) : M response :=
  razorpay_order_id <- lift (py_get data "razorpay_order_id" JNull) ;;
  razorpay_payment_id <- lift (py_get data "razorpay_payment_id" JNull) ;;
  razorpay_signature <- lift (py_get data "razorpay_signature" JNull) ;;
  if negb (py_all [razorpay_order_id; razorpay_payment_id; razorpay_signature])
  then ret missing_details_response
  else
    try_except
      (verify_payment_inner gw razorpay_order_id razorpay_payment_id
         razorpay_signature)
      is_signature_error
      (fun _ => ret signature_failed_response).

Definition verify_payment (gw : Gateway) (data : json) : M response :=
  try_except (verify_payment_body gw data) (fun _ => true) internal_error.

(** The two payment routes, and a process serving requests one after the
    other. *)
Inductive request : Type :=
| PostCreateOrder (data : json)
| PostVerifyPayment (data : json).

Definition handle (gw : Gateway) (req : request) : M response :=
  match req with
  | PostCreateOrder data => create_order gw data
  | PostVerifyPayment data => verify_payment gw data
  end.

Fixpoint serve (gw : Gateway) (reqs : list request) (m : machine)
    : list (result response) * machine :=
  match reqs with
  | [] => ([], m)
  | req :: rest =>
      let '(r, m1) := handle gw req m in
      let '(rs, m2) := serve gw rest m1 in
      (r :: rs, m2)
  end.

(** The machine a process is in after it has served [history]. *)
Definition machine_after (gw : Gateway) (history : list request)
    (m : machine) : machine :=
  snd (serve gw history m).

(** The ["amount"] member of a response body. *)
Definition response_amount (r : result response) : option json :=
  match r with
  | Ok {| body := JObj d |} => dict_get d "amount"
  | _ => None
  end.

(** [data.get('upi_id', 'Not provided')] on a dict. *)
Definition upi_id_of (d : dict) : json :=
  match dict_get d "upi_id" with Some v => v | None => JStr "Not provided" end.

(** The guard of line 159 lets the amount through. *)
Definition validation_accepts (amount : json) : bool :=
  match amount_guard amount with
  | Ok false => true
  | _ => false
  end.

(** The value of a JSON number that [int()] converts. *)
Definition number_value (v : json) : option Q :=
  match v with
  | JInt n => Some (inject_Z n)
  | JFloat (FFinite q) => Some q
  | _ => None
  end.

(** An amount that is absent or null, empty, zero or false, or a number
    that is at most 0. *)
Definition absent_or_nonpositive (amount : json) : bool :=
  match amount with
  | JNull => true
  | JBool b => negb b
  | JInt n => n <=? 0
  | JFloat (FFinite q) => Qle_bool q 0
  | JFloat FNegInf => true
  | JFloat _ => false
  | JStr s => Str.is_empty s
  | JArr l => match l with [] => true | _ => false end
  | JObj d => match d with [] => true | _ => false end
  end.

(** An amount that is a non-empty string, array or object. *)
Definition nonempty_nonnumeric (amount : json) : bool :=
  match amount with
  | JStr s => negb (Str.is_empty s)
  | JArr l => match l with [] => false | _ => true end
  | JObj d => match d with [] => false | _ => true end
  | _ => false
  end.

(** *** The intent record of the specification

    Section 3 of the specification describes a PaymentIntent kept per
    order id.  [backend.py] declares no such record; it is written down
    here only to state what the specification says is stored. *)

Module IntentSpec.

Inductive intent_state : Type :=
| Created
| AwaitingVerification
| Verified
| Failed.

Record PaymentIntent : Type := {
  orderId : string;
  amountMinorUnits : Z;
  currency : string;
  state : intent_state;
  paymentId : option json;
  metadata : dict
}.

End IntentSpec.

(** ** A sample provider and process, for the concrete runs below *)

Module Sample.

Definition provider_error (s : string) : exn :=
  {| cls := ProviderError; msg := s |}.

(** A provider that answers an order request with an order echoing the
    requested amount, accepts the signature ["sig_ok"] and no other, and
    reports every payment as a captured payment of 50000 paise. *)
Definition gateway : Gateway :=
  {| order_create := fun _ data =>
       match py_get data "amount" JNull with
       | Ok a => Ok [ ("id", JStr "order_1"); ("amount", a);
                      ("currency", JStr "INR"); ("status", JStr "created") ]
       | Raise e => Raise e
       end;
     verify_payment_signature := fun _ params =>
       match py_get params "razorpay_signature" JNull with
       | Ok (JStr "sig_ok") => Ok tt
       | _ => Raise {| cls := SignatureVerificationError;
                       msg := "Razorpay Signature Verification Failed" |}
       end;
     payment_fetch := fun _ payment_id =>
       Ok [ ("id", payment_id); ("amount", JInt 50000);
            ("status", JStr "captured") ] |}.

Definition fresh : machine :=
  {| globals := {| RAZORPAY_KEY_ID := Some "rzp_test_key";
                   RAZORPAY_KEY_SECRET := Some "secret" |};
     provider_log := [] |}.

Definition order_request (amount : json) : json :=
  JObj [ ("amount", amount) ].

Definition verify_request (order_id signature : string) : json :=
  JObj [ ("razorpay_order_id", JStr order_id);
         ("razorpay_payment_id", JStr "pay_1");
         ("razorpay_signature", JStr signature) ].

Definition statuses (rs : list (result response)) : list (option Z) :=
  map (fun r => match r with Ok x => Some (status x) | Raise _ => None end) rs.

End Sample.

(** ** The other routes and the start of the process *)

(** [get_razorpay_key] (lines 245-248). *)
Definition get_razorpay_key : M response :=
  key_id <- read_global RAZORPAY_KEY_ID ;;
  ret (jsonify (JObj [ ("key_id", json_of_option_string key_id) ])).

(** [x and y]: [x] when it is false, else [y]. *)
Definition py_and (x y : json) : json := if py_truthy x then y else x.

(** [health_check] (lines 250-257). *)
Definition health_check : M response :=
  key_id <- read_global RAZORPAY_KEY_ID ;;
  key_secret <- read_global RAZORPAY_KEY_SECRET ;;
  ret (jsonify
         (JObj [ ("status", JStr "ok");
                 ("whisper_model", JStr "whisper-base");
                 ("razorpay_configured",
                  JBool (py_truthy (py_and (json_of_option_string key_id)
                                      (json_of_option_string key_secret)))) ])).

(** The bytes of an uploaded file. *)
Definition audio : Type := string.

(** What [transcribe_audio] does outside the process: the calls on the
    temporary file and on the Whisper model, in the order they are made. *)
Inductive file_call : Type :=
| NamedTemporaryFile
| Save (path : string)
| Transcribe (path : string)
| Unlink (path : string).

(** The collaborators of [transcribe_audio], each returning or raising:
    [tempfile.NamedTemporaryFile(delete=False, suffix='.wav')] gives the
    name of the file it created; [audio_file.save(name)] writes the upload
    there; [model.transcribe(path, language="en")["text"]] gives the text
    heard in the file; [os.unlink(path)] removes it.  Leaving the [with]
    block (closing the handle) is taken to succeed. *)
Record Runtime : Type := {
  named_temporary_file : result string;
  file_save : audio -> string -> result unit;
  model_transcribe : string -> audio -> result string;
  os_unlink : string -> result unit
}.

(** [None] is [null] in the response. *)
Definition json_of_amount (a : option Z) : json :=
  match a with Some n => JInt n | None => JNull end.

(** Lines 127-133. *)
Definition transcribe_response (transcribed_text : string) (amount : option Z)
    : response :=
  jsonify (JObj [ ("success", JBool true);
                  ("text", JStr transcribed_text);
                  ("amount", json_of_amount amount) ]).

Definition no_audio_response : response :=
  jsonify_status (JObj [("error", JStr "No audio file provided")]) 400.

(** [return jsonify({'error': str(e)}), 500]. *)
Definition error_response (e : exn) : response :=
  jsonify_status (JObj [("error", JStr (msg e))]) 500.

(** [transcribe_audio] (lines 95-141); [files] is [request.files].  The
    [finally] clause runs whether the inner block returned or raised, and
    an exception it raises takes the place of either. *)
Definition transcribe_audio (rt : Runtime) (files : list (string * audio))
    : response * list file_call :=
  match dict_get files "audio" with
  | None => (no_audio_response, [])
  | Some audio_file =>
      match named_temporary_file rt with
      | Raise e => (error_response e, [NamedTemporaryFile])
      | Ok temp_path =>
          match file_save rt audio_file temp_path with
          | Raise e => (error_response e, [NamedTemporaryFile; Save temp_path])
          | Ok _ =>
              let inner :=
                match model_transcribe rt temp_path audio_file with
                | Ok transcribed_text =>
                    match extract_amount transcribed_text with
                    | Ok amount =>
                        Ok (transcribe_response transcribed_text amount)
                    | Raise e => Raise e
                    end
                | Raise e => Raise e
                end in
              let calls := [ NamedTemporaryFile; Save temp_path;
                             Transcribe temp_path; Unlink temp_path ] in
              match os_unlink rt temp_path with
              | Raise e => (error_response e, calls)
              | Ok _ =>
                  match inner with
                  | Ok r => (r, calls)
                  | Raise e => (error_response e, calls)
                  end
              end
          end
      end
  end.

(** [needle in s] on strings: [needle] occurs in [s]. *)
Fixpoint starts_with (needle s : string) : bool :=
  match needle, s with
  | EmptyString, _ => true
  | String _ _, EmptyString => false
  | String a needle', String b s' => Ascii.eqb a b && starts_with needle' s'
  end.

Fixpoint str_contains (needle s : string) : bool :=
  starts_with needle s
  || match s with
     | EmptyString => false
     | String _ s' => str_contains needle s'
     end.

(** [needle in v] where [v] is a string or [None]. *)
Definition py_in (needle : string) (v : option string) : result bool :=
  match v with
  | Some s => Ok (str_contains needle s)
  | None =>
      Raise {| cls := TypeError;
               msg := "argument of type 'NoneType' is not iterable" |}
  end.

(** The test of line 261:
    ["YOUR_KEY" in RAZORPAY_KEY_ID or "YOUR_SECRET" in RAZORPAY_KEY_SECRET]. *)
Definition placeholder_credentials (g : process_state) : result bool :=
  match py_in "YOUR_KEY" (RAZORPAY_KEY_ID g) with
  | Raise e => Raise e
  | Ok true => Ok true
  | Ok false => py_in "YOUR_SECRET" (RAZORPAY_KEY_SECRET g)
  end.

(** What the script has printed when it reaches [app.run]. *)
Inductive startup : Type :=
| StartedWithWarning
| StartedQuietly.

(** Lines 259-273: the block run when the file is the main script.  [Ok]
    means that [app.run] is reached. *)
Definition main_block (g : process_state) : result startup :=
  match placeholder_credentials g with
  | Raise e => Raise e
  | Ok true => Ok StartedWithWarning
  | Ok false => Ok StartedQuietly
  end.

(** A token that the lexicon knows once its punctuation is stripped. *)
Definition recognized (word : string) : bool :=
  match dict_get words_to_numbers (re_sub_punct word) with
  | Some _ => true
  | None => false
  end.

(** A text without digits whose tokens are all unknown to the lexicon. *)
Definition filler (text : string) : bool :=
  negb (Str.has Str.isdigit text)
  && forallb (fun w => negb (recognized w)) (Str.split (Str.lower text)).

(** What [verify_payment] answers to an exception raised inside the inner
    [try] (lines 217-239): the signature error is reported as a failed
    verification, any other error by the outer handler. *)
Definition answer_to (e : exn) : response :=
  if is_signature_error e then signature_failed_response else error_response e.

(** The member [k] of the body of a response. *)
Definition response_member (k : string) (r : result response) : option json :=
  match r with
  | Ok {| body := JObj d |} => dict_get d k
  | _ => None
  end.

(** More samples for the concrete runs. *)
Module Outage.

(** A provider whose every call fails. *)
Definition gateway : Gateway :=
  {| order_create := fun _ _ =>
       Raise {| cls := ProviderError; msg := "Connection refused" |};
     verify_payment_signature := fun _ _ => Ok tt;
     payment_fetch := fun _ _ =>
       Raise {| cls := ProviderError; msg := "Connection refused" |} |}.

(** A runtime where everything works and the model hears [heard]. *)
Definition runtime (heard : string) : Runtime :=
  {| named_temporary_file := Ok "/tmp/tmpab12.wav";
     file_save := fun _ _ => Ok tt;
     model_transcribe := fun _ _ => Ok heard;
     os_unlink := fun _ => Ok tt |}.


(** A runtime that cannot write the upload. *)
Definition full_disk_runtime : Runtime :=
  {| named_temporary_file := Ok "/tmp/tmpab12.wav";
     file_save := fun _ _ =>
       Raise {| cls := ProviderError; msg := "No space left on device" |};
     model_transcribe := fun _ _ => Ok "";
     os_unlink := fun _ => Ok tt |}.

End Outage.

(** Samples at the edges of the number formats. *)
Module Edge.

(** The numeral made of [n] nines. *)
Fixpoint nines (n : nat) : string :=
  match n with
  | O => EmptyString
  | S n' => String "9" (nines n')
  end.

(** A provider that accepts every signature and reports every payment as
    a captured payment of [paise]. *)
Definition gateway_reporting (paise : Z) : Gateway :=
  {| order_create := fun _ _ =>
       Raise {| cls := ProviderError; msg := "not used" |};
     verify_payment_signature := fun _ _ => Ok tt;
     payment_fetch := fun _ payment_id =>
       Ok [ ("id", payment_id); ("amount", JInt paise);
            ("status", JStr "captured") ] |}.

End Edge.

(** * Properties *)

(** ** Strings *)

Lemma append_empty_r (s : string) : s ++ "" = s.
Proof. induction s as [|c s IH]; simpl; [reflexivity | now rewrite IH]. Qed.

Lemma append_snoc_cons (s t : string) (c : ascii) :
  (s ++ String c "") ++ t = s ++ String c t.
Proof. induction s as [|d s IH]; simpl; [reflexivity | now rewrite IH]. Qed.

Lemma snoc_not_empty (s : string) (c : ascii) :
  Str.is_empty (s ++ String c "") = false.
Proof. destruct s; reflexivity. Qed.

Lemma runs_from_started (p : ascii -> bool) (text run : string) :
  Str.is_empty run = false ->
  exists tl, Str.runs_from p run text = (run ++ Str.take_while p text) :: tl.
Proof.
  revert run; induction text as [|c rest IH]; intros run Hrun; simpl.
  - unfold Str.close; rewrite Hrun, append_empty_r. now exists [].
  - destruct (p c).
    + destruct (IH (run ++ String c "") (snoc_not_empty run c)) as [tl Htl].
      exists tl. now rewrite Htl, append_snoc_cons.
    + unfold Str.close; rewrite Hrun, append_empty_r; simpl. eauto.
Qed.

Lemma runs_first (p : ascii -> bool) (text : string) :
  Str.has p text = true ->
  exists tl,
    Str.runs p text
    = Str.take_while p (Str.drop_while (fun c => negb (p c)) text) :: tl.
Proof.
  unfold Str.runs.
  induction text as [|c rest IH]; simpl; [discriminate|].
  destruct (p c) eqn:Hc; simpl; intros H.
  - destruct (runs_from_started p rest (String c "") eq_refl) as [tl Htl].
    exists tl. rewrite Htl. simpl. now rewrite Hc.
  - exact (IH H).
Qed.

Lemma runs_none (p : ascii -> bool) (text : string) :
  Str.has p text = false -> Str.runs p text = [].
Proof.
  unfold Str.runs.
  induction text as [|c rest IH]; simpl; [reflexivity|].
  destruct (p c); simpl; [discriminate | exact IH].
Qed.

Lemma py_int_from_base10 (s : string) (acc : Z) :
  py_int_from acc s
  = acc * 10 ^ Z.of_nat (String.length s) + ParserSpec.base10_value s.
Proof.
  revert acc; induction s as [|c r IH]; intros acc.
  - simpl. lia.
  - cbn [py_int_from ParserSpec.base10_value String.length].
    rewrite IH, Nat2Z.inj_succ, Z.pow_succ_r by lia. ring.
Qed.

Lemma py_int_from_0_base10 (s : string) :
  py_int_from 0 s = ParserSpec.base10_value s.
Proof. rewrite py_int_from_base10. lia. Qed.

(** Up to the limit [int()] returns the value of the numeral. *)
Lemma py_int_ok (s : string) :
  (String.length s <= int_max_str_digits)%nat ->
  py_int s = Ok (py_int_from 0 s).
Proof.
  intros H. unfold py_int.
  destruct (Nat.ltb_spec int_max_str_digits (String.length s)); [lia|].
  reflexivity.
Qed.

(** Past the limit it raises. *)
Lemma py_int_raises (s : string) :
  (int_max_str_digits < String.length s)%nat ->
  exists e, py_int s = Raise e /\ cls e = ValueError.
Proof.
  intros H. unfold py_int.
  destruct (Nat.ltb_spec int_max_str_digits (String.length s)); [|lia].
  eexists; split; reflexivity.
Qed.

Lemma digit_path (word_path : string -> option Z) (text : string) :
  Str.has Str.isdigit text = true ->
  extract_amount_with word_path text
  = match py_int (ParserSpec.first_digit_run text) with
    | Ok n => Ok (Some n)
    | Raise e => Raise e
    end.
Proof.
  intros H. unfold extract_amount_with, re_findall_digits.
  destruct (runs_first Str.isdigit text H) as [tl Htl].
  now rewrite Htl.
Qed.

Lemma digit_path_ok (word_path : string -> option Z) (text : string) :
  Str.has Str.isdigit text = true ->
  (String.length (ParserSpec.first_digit_run text) <= int_max_str_digits)%nat ->
  extract_amount_with word_path text
  = Ok (Some (py_int_from 0 (ParserSpec.first_digit_run text))).
Proof.
  intros H L. now rewrite (digit_path _ _ H), (py_int_ok _ L).
Qed.

Lemma word_path_reached (word_path : string -> option Z) (text : string) :
  Str.has Str.isdigit text = false ->
  extract_amount_with word_path text = Ok (word_path text).
Proof.
  intros H. unfold extract_amount_with, re_findall_digits.
  now rewrite (runs_none _ _ H).
Qed.

(** C4. When the text contains a decimal digit and its first maximal run
    of digits is a numeral that [int()] converts (at most 4300 digits),
    [extract_amount] returns the base-10 value of that run.  Whatever the
    length of the run, the result is the same whatever the word path would
    compute: the word path is not consulted.  In particular "pay 250
    rupees" gives 250. *)
Theorem C4_digit_extraction_wins
    (word_path1 word_path2 : string -> option Z) (text : string) :
  Str.has Str.isdigit text = true ->
  (String.length (ParserSpec.first_digit_run text) <= 4300)%nat ->
  extract_amount text
  = Ok (Some (ParserSpec.base10_value (ParserSpec.first_digit_run text)))
  /\ extract_amount_with word_path1 text = extract_amount_with word_path2 text
  /\ extract_amount "pay 250 rupees" = Ok (Some 250).
Proof.
  intros H L. split; [|split].
  - unfold extract_amount.
    now rewrite (digit_path_ok _ _ H L), py_int_from_0_base10.
  - now rewrite !(digit_path _ _ H).
  - reflexivity.
Qed.

Lemma C4_digit_extraction_wins_witness :
  Str.has Str.isdigit "send 42 to 7" = true
  /\ extract_amount "send 42 to 7" = Ok (Some 42).
Proof.
  split; [reflexivity|].
  exact (proj1 (C4_digit_extraction_wins (fun _ => None) (fun _ => Some 1)
                  "send 42 to 7" eq_refl
                  (proj1 (Nat.leb_le 2 4300) eq_refl))).
Defined.

(** ** The word path *)

Ltac lexicon_cases :=
  repeat match goal with
         | |- context [String.eqb ?t ?k] =>
             destruct (String.eqb_spec t k);
             [ subst; try reflexivity; try (cbn; lia) | ]
         end.

(** The loop body of the code is the fold step of the specification on the
    token stripped of its punctuation. *)
Lemma loop_body_step (st : loop_state) (word : string) :
  loop_body st word = ParserSpec.step st (re_sub_punct word).
Proof.
  destruct st as [total current].
  unfold loop_body, ParserSpec.step, ParserSpec.classify.
  generalize (re_sub_punct word); intros token.
  unfold words_to_numbers, ParserSpec.small_words; cbn [dict_get].
  lexicon_cases. reflexivity.
Qed.

Lemma fold_loop_body_step (words : list string) (st : loop_state) :
  fold_left loop_body words st
  = fold_left ParserSpec.step (map re_sub_punct words) st.
Proof.
  revert st; induction words as [|w ws IH]; intros st; simpl.
  - reflexivity.
  - now rewrite IH, loop_body_step.
Qed.

Lemma lexicon_nonneg (token : string) (num : Z) :
  dict_get words_to_numbers token = Some num -> 0 <= num.
Proof.
  unfold words_to_numbers; cbn [dict_get].
  repeat match goal with
         | |- context [String.eqb ?t ?k] =>
             destruct (String.eqb_spec t k);
             [ intros [= <-]; lia | ]
         end.
  discriminate.
Qed.

Lemma loop_body_nonneg (st : loop_state) (word : string) :
  0 <= fst st /\ 0 <= snd st ->
  0 <= fst (loop_body st word) /\ 0 <= snd (loop_body st word).
Proof.
  destruct st as [total current]; intros [Ht Hc]; cbn [fst snd] in Ht, Hc.
  unfold loop_body; cbv zeta.
  destruct (dict_get words_to_numbers (re_sub_punct word)) as [num|] eqn:E;
    [apply lexicon_nonneg in E | simpl; lia].
  destruct (num =? 100); [destruct (current =? 0) eqn:E0; simpl; lia|].
  destruct (num =? 1000); [destruct (current =? 0) eqn:E0; simpl; lia|].
  simpl; lia.
Qed.

Lemma fold_loop_body_nonneg (words : list string) (st : loop_state) :
  0 <= fst st /\ 0 <= snd st ->
  0 <= fst (fold_left loop_body words st)
  /\ 0 <= snd (fold_left loop_body words st).
Proof.
  revert st; induction words as [|w ws IH]; intros st H; simpl.
  - exact H.
  - apply IH, loop_body_nonneg, H.
Qed.

(** C5. On a digit-free text [extract_amount] lowercases the text, strips
    the punctuation of each whitespace-separated token and folds the
    tokens left to right with the step of the specification (a unit, teen
    or ten word adds to [current]; "hundred" multiplies [current] by 100,
    a lone one giving 100; "thousand" multiplies [current], or 1, by 1000,
    adds the product to [total] and resets [current]; other tokens are
    ignored).  So "two thousand five hundred" is 2500 and "twenty one
    hundred" is 2100. *)
Theorem C5_word_fold (text : string) :
  Str.has Str.isdigit text = false ->
  extract_amount text
  = Ok (ParserSpec.positive_or_none
          (fst (ParserSpec.fold_words text) + snd (ParserSpec.fold_words text)))
  /\ extract_amount "two thousand five hundred" = Ok (Some 2500)
  /\ extract_amount "twenty one hundred" = Ok (Some 2100).
Proof.
  intros H. split; [|split; reflexivity].
  unfold extract_amount. rewrite (word_path_reached _ _ H).
  unfold word_amount, ParserSpec.fold_words, ParserSpec.tokens,
    ParserSpec.positive_or_none.
  rewrite fold_loop_body_step.
  now destruct (fold_left _ _ _).
Qed.

Lemma C5_word_fold_witness :
  Str.has Str.isdigit "Three thousand, two hundred and forty-one!" = false
  /\ extract_amount "Three thousand, two hundred and forty-one!"
     = Ok (Some 3200).
Proof.
  split; [reflexivity|].
  exact (proj1 (C5_word_fold "Three thousand, two hundred and forty-one!"
                  eq_refl)).
Defined.

(** C6. On a digit-free text [extract_amount] returns [total + current]
    of the word loop when it is strictly positive and [None] otherwise;
    as neither counter is ever negative, [None] means that the sum is 0.
    In particular "zero" and "hello world" give [None]. *)
Theorem C6_positive_or_none (text : string) :
  Str.has Str.isdigit text = false ->
  let st := fold_left loop_body (Str.split (Str.lower text)) (0, 0) in
  extract_amount text
  = Ok (if 0 <? fst st + snd st then Some (fst st + snd st) else None)
  /\ (forall v, extract_amount text = Ok (Some v) -> 0 < v)
  /\ (extract_amount text = Ok None <-> fst st + snd st = 0)
  /\ extract_amount "zero" = Ok None
  /\ extract_amount "hello world" = Ok None.
Proof.
  intros H st.
  assert (E : extract_amount text
              = Ok (if 0 <? fst st + snd st
                    then Some (fst st + snd st) else None)).
  { unfold extract_amount. rewrite (word_path_reached _ _ H).
    unfold word_amount. subst st. now destruct (fold_left _ _ _). }
  assert (N : 0 <= fst st /\ 0 <= snd st).
  { apply fold_loop_body_nonneg. simpl; lia. }
  repeat split; try reflexivity.
  - exact E.
  - intros v. rewrite E. destruct (Z.ltb_spec 0 (fst st + snd st)).
    + intros [= <-]. assumption.
    + discriminate.
  - rewrite E. destruct (Z.ltb_spec 0 (fst st + snd st)); [discriminate | lia].
  - rewrite E. destruct (Z.ltb_spec 0 (fst st + snd st)); [lia | reflexivity].
Qed.

Lemma C6_positive_or_none_witness :
  Str.has Str.isdigit "zero, zero." = false
  /\ extract_amount "zero, zero." = Ok None.
Proof.
  split; [reflexivity|].
  exact (proj1 (C6_positive_or_none "zero, zero." eq_refl)).
Defined.

(** C9. A text whose first maximal digit run is "0" contains a digit, and
    [extract_amount] returns 0 on it, not [None]: "0 rupees" gives 0,
    while the word "zero" gives [None].  The suppression of a zero result
    belongs to the word path only. *)
Theorem C9_digit_zero_returned (text : string) :
  ParserSpec.first_digit_run text = "0" ->
  Str.has Str.isdigit text = true
  /\ extract_amount text = Ok (Some 0)
  /\ extract_amount "0 rupees" = Ok (Some 0)
  /\ extract_amount "zero" = Ok None.
Proof.
  intros H.
  assert (D : Str.has Str.isdigit text = true).
  { destruct (Str.has Str.isdigit text) eqn:E; [reflexivity|].
    exfalso. revert H E. unfold ParserSpec.first_digit_run.
    induction text as [|c r IH]; simpl; [discriminate|].
    destruct (Str.isdigit c); simpl; [discriminate | exact IH]. }
  repeat split; try reflexivity; try exact D.
  unfold extract_amount. now rewrite (digit_path _ _ D), H.
Qed.

Lemma C9_digit_zero_returned_witness :
  ParserSpec.first_digit_run "only 0 rupees, not 15" = "0"
  /\ extract_amount "only 0 rupees, not 15" = Ok (Some 0).
Proof.
  split; [reflexivity|].
  exact (proj1 (proj2 (C9_digit_zero_returned "only 0 rupees, not 15"
                         eq_refl))).
Defined.

(** ** Division *)

Lemma round_half_even_near (N D : Z) :
  0 <= N -> 0 < D ->
  2 * round_half_even N D * D - D <= 2 * N <= 2 * round_half_even N D * D + D.
Proof.
  intros HN HD. unfold round_half_even.
  pose proof (Z.div_mod N D ltac:(lia)) as E.
  pose proof (Z.mod_pos_bound N D HD) as B.
  set (f := N / D) in *. set (r := N mod D) in *.
  destruct (Z.ltb_spec (2 * r) D); [nia|].
  destruct (Z.ltb_spec D (2 * r)); [nia|].
  destruct (Z.even f); nia.
Qed.

Lemma round_half_even_le (N D K : Z) :
  0 <= N -> 0 < D -> N < D * K -> round_half_even N D <= K.
Proof.
  intros HN HD H. unfold round_half_even.
  assert (N / D < K) by (apply Z.div_lt_upper_bound; lia).
  destruct (_ <? _); [lia|]. destruct (_ <? _); [lia|].
  destruct (Z.even _); lia.
Qed.

Lemma round_half_even_lt (N D K : Z) :
  0 <= N -> 0 < D -> 2 * N < D * (2 * K - 1) -> round_half_even N D < K.
Proof.
  intros HN HD H. unfold round_half_even.
  pose proof (Z.div_mod N D ltac:(lia)) as E.
  pose proof (Z.mod_pos_bound N D HD) as B.
  set (f := N / D) in *. set (r := N mod D) in *.
  assert (f < K) by nia.
  destruct (Z.ltb_spec (2 * r) D); [lia|].
  assert (f < K - 1 \/ f = K - 1) as [ Hf | Hf ] by lia.
  - destruct (_ <? _); [lia|]. destruct (Z.even _); lia.
  - nia.
Qed.

Lemma round_half_even_exact (k D : Z) :
  0 < D -> round_half_even (D * k) D = k.
Proof.
  intros HD. unfold round_half_even.
  rewrite (Z.mul_comm D k), Z.div_mul, Z.mod_mul by lia.
  destruct (Z.ltb_spec (2 * 0) D); [reflexivity | lia].
Qed.

Lemma ulp_exponent_spec (N d : Z) :
  0 < N -> 0 < d ->
  0 <= ulp_exponent N d
  /\ N < d * 2 ^ (ulp_exponent N d + 53)
  /\ (0 < ulp_exponent N d -> d * 2 ^ (ulp_exponent N d + 52) <= N).
Proof.
  intros HN Hd. unfold ulp_exponent.
  pose proof (Z.log2_spec N HN) as [La Ua].
  pose proof (Z.log2_spec d Hd) as [Lb Ub].
  pose proof (Z.log2_nonneg N) as Na. pose proof (Z.log2_nonneg d) as Nb.
  set (a := Z.log2 N) in *. set (b := Z.log2 d) in *.
  rewrite <- Z.add_1_r in Ua, Ub.
  assert (Up : forall k, a - b + 1 <= k -> 0 <= k -> N < d * 2 ^ k).
  { intros k Hk Hk0.
    assert (2 ^ (a + 1) <= 2 ^ b * 2 ^ k).
    { rewrite <- Z.pow_add_r by lia. apply Z.pow_le_mono_r; lia. }
    assert (0 < 2 ^ k) by (apply Z.pow_pos_nonneg; lia).
    nia. }
  assert (Lo : forall k, k <= a - b - 1 -> 0 <= k -> d * 2 ^ k <= N).
  { intros k Hk Hk0.
    assert (2 ^ (b + 1) * 2 ^ k <= 2 ^ a).
    { rewrite <- Z.pow_add_r by lia. apply Z.pow_le_mono_r; lia. }
    assert (0 < 2 ^ k) by (apply Z.pow_pos_nonneg; lia).
    nia. }
  destruct (Z.leb_spec (d * 2 ^ (a - b)) N) as [T|T].
  - destruct (Z.max_spec (a - b - 52) 0) as [[H ->]|[H ->]].
    + repeat split; [lia | apply Up; lia | lia].
    + repeat split; [lia | | ].
      * apply Up; lia.
      * intros _. replace (a - b - 52 + 52) with (a - b) by lia. exact T.
  - destruct (Z.max_spec (a - b - 1 - 52) 0) as [[H ->]|[H ->]].
    + repeat split; [lia | | lia].
      destruct (Z.le_gt_cases 0 (a - b)).
      * assert (2 ^ (a - b) <= 2 ^ (0 + 53)) by (apply Z.pow_le_mono_r; lia).
        nia.
      * apply Up; lia.
    + repeat split; [lia | | ].
      * replace (a - b - 1 - 52 + 53) with (a - b) by lia. exact T.
      * intros _. apply Lo; lia.
Qed.

Lemma pow2_split (a b : Z) : 0 <= a -> 0 <= b -> 2 ^ (a + b) = 2 ^ a * 2 ^ b.
Proof. intros. apply Z.pow_add_r; lia. Qed.

(** The powers of two of the format, kept abstract in the arithmetic. *)
Lemma format_powers :
  2 ^ 2098 = 18014398509481984 * 2 ^ 2044
  /\ (2 ^ 1024 - 2 ^ 970) * 2 ^ 1074 = 18014398509481983 * 2 ^ 2044
  /\ 2 ^ 2045 = 2 * 2 ^ 2044
  /\ 2 ^ 2097 = 9007199254740992 * 2 ^ 2044
  /\ 2 ^ 2098 = 4503599627370496 * 2 ^ 2046
  /\ 2 ^ 1127 = 9007199254740992 * 2 ^ 1074
  /\ 0 < 2 ^ 2044 /\ 0 < 2 ^ 1074 /\ 0 < 2 ^ 2046.
Proof. repeat split; reflexivity. Qed.

Lemma pow2_53 (t : Z) : 0 <= t -> 2 ^ (t + 53) = 2 ^ t * 9007199254740992.
Proof. intros. rewrite pow2_split by lia. reflexivity. Qed.

Lemma pow2_52 (t : Z) : 0 <= t -> 2 ^ (t + 52) = 2 ^ t * 4503599627370496.
Proof. intros. rewrite pow2_split by lia. reflexivity. Qed.

Lemma round_half_even_nonneg (N D : Z) :
  0 <= N -> 0 < D -> 0 <= round_half_even N D.
Proof.
  intros HN HD. unfold round_half_even.
  assert (0 <= N / D) by (apply Z.div_pos; lia).
  destruct (_ <? _); [lia|]. destruct (_ <? _); [lia|].
  destruct (Z.even _); lia.
Qed.

Lemma round_half_even_ge (N D K : Z) :
  0 <= N -> 0 < D -> D * K <= N -> K <= round_half_even N D.
Proof.
  intros HN HD H. unfold round_half_even.
  assert (K <= N / D) by (apply Z.div_le_lower_bound; lia).
  destruct (_ <? _); [lia|]. destruct (_ <? _); [lia|].
  destruct (Z.even _); lia.
Qed.

Lemma round_pos_facts (n d : positive) :
  let N := Zpos n * 2 ^ 1074 in
  let t := ulp_exponent N (Zpos d) in
  let D := Zpos d * 2 ^ t in
  let m := round_half_even N D in
  0 < N /\ 0 <= t /\ 0 < 2 ^ t /\ 0 < D /\ 0 <= m
  /\ N < D * 9007199254740992
  /\ (0 < t -> D * 4503599627370496 <= N).
Proof.
  intros N t D m.
  destruct format_powers as (_ & _ & _ & _ & _ & _ & _ & U & _).
  assert (HN : 0 < N) by (subst N; lia).
  destruct (ulp_exponent_spec N (Zpos d) HN ltac:(lia)) as (T0 & TU & TL).
  fold t in T0, TU, TL.
  assert (P : 0 < 2 ^ t) by (apply Z.pow_pos_nonneg; lia).
  assert (HD : 0 < D) by (subst D; lia).
  rewrite pow2_53 in TU by lia. rewrite pow2_52 in TL by lia.
  repeat split; try assumption.
  - apply round_half_even_nonneg; lia.
  - subst D. lia.
  - intros H. subst D. specialize (TL H). lia.
Qed.

(** The quantities of [round_double_pos]: the quotient in units, the
    exponent of the spacing, the scaled denominator and the mantissa. *)
Ltac name_rounding n d F :=
  pose proof (round_pos_facts n d) as F; cbv zeta in F;
  unfold round_double_pos;
  set (N := Zpos n * 2 ^ 1074) in *;
  set (t := ulp_exponent N (Zpos d)) in *;
  set (D := Zpos d * 2 ^ t) in *;
  set (m := round_half_even N D) in *.

Lemma round_double_pos_in_range (n d : positive) :
  Zpos n < Zpos d * (2 ^ 1024 - 2 ^ 970) ->
  exists r, round_double_pos n d = Some r.
Proof.
  intros H. name_rounding n d F.
  assert (Hd : 0 < Zpos d) by lia.
  destruct F as (HN & T0 & P & HD & M0 & TU & TL).
  destruct format_powers as (E1 & E2 & E3 & _ & _ & _ & BU & U & _).
  assert (HB : N < Zpos d * (18014398509481983 * 2 ^ 2044)).
  { rewrite <- E2, Z.mul_assoc. subst N. apply Z.mul_lt_mono_pos_r; assumption. }
  clear H E2.
  destruct (Z.leb_spec (2 ^ 2098) (m * 2 ^ t)) as [O|O]; [exfalso | eauto].
  rewrite E1 in O. clear E1.
  destruct (Z.le_gt_cases t 2044) as [Ht|Ht].
  - assert (Hp : 2 ^ t <= 2 ^ 2044) by (apply Z.pow_le_mono_r; lia).
    pose proof (round_half_even_le N D 9007199254740992 ltac:(lia) HD TU) as Hm.
    fold m in Hm. try clearbody m; try clearbody D; try clearbody t; try clearbody N;
      clear - Hd O Hp Hm M0 BU P.
    generalize dependent (2 ^ 2044). generalize dependent (2 ^ t). intros. nia.
  - specialize (TL ltac:(lia)).
    assert (Ht' : t < 2046).
    { apply (Z.pow_lt_mono_r_iff 2); [lia | lia |].
      destruct format_powers as (_ & _ & _ & _ & E5 & _ & _ & _ & B6).
      assert (E6 : 2 ^ 2046 = 4 * 2 ^ 2044) by reflexivity.
      rewrite E6. subst D. try clearbody m; try clearbody D; try clearbody t; try clearbody N;
      clear - Hd TL HB BU P.
      generalize dependent (2 ^ 2044). generalize dependent (2 ^ t).
      generalize dependent (Zpos d). intros. nia. }
    assert (Et : 2 ^ t = 2 * 2 ^ 2044).
    { replace t with 2045 by lia. exact E3. }
    assert (Hm : m < 9007199254740992).
    { apply round_half_even_lt; [lia | exact HD |].
      subst D. rewrite Et. try clearbody m; try clearbody D; try clearbody t; try clearbody N;
      clear - Hd HB BU.
      generalize dependent (2 ^ 2044). generalize dependent (Zpos d). intros. nia. }
    rewrite Et in O. try clearbody m; try clearbody D; try clearbody t; try clearbody N;
      clear - Hd O Hm M0 BU.
    generalize dependent (2 ^ 2044). intros. nia.
Qed.

Lemma round_double_pos_overflow (n d : positive) :
  Zpos d * (2 ^ 1024 - 2 ^ 970) <= Zpos n ->
  round_double_pos n d = None.
Proof.
  intros H. name_rounding n d F.
  assert (Hd : 0 < Zpos d) by lia.
  destruct F as (HN & T0 & P & HD & M0 & TU & TL).
  destruct format_powers as (E1 & E2 & E3 & E4 & E5 & _ & BU & U & B6).
  assert (HB : Zpos d * (18014398509481983 * 2 ^ 2044) <= N).
  { rewrite <- E2, Z.mul_assoc. subst N. apply Z.mul_le_mono_nonneg_r; lia. }
  clear H E2.
  assert (Ht : 2045 <= t).
  { assert (Hp : 2 ^ 2097 < 2 ^ (t + 53)).
    { rewrite E4, pow2_53 by lia. subst D. try clearbody m; try clearbody D; try clearbody t; try clearbody N;
      clear - Hd HB TU BU P.
      generalize dependent (2 ^ 2044). generalize dependent (2 ^ t).
      generalize dependent (Zpos d). intros. nia. }
    apply Z.pow_lt_mono_r_iff in Hp; lia. }
  specialize (TL ltac:(lia)).
  pose proof (round_half_even_ge N D 4503599627370496 ltac:(lia) HD TL) as Hm.
  fold m in Hm.
  destruct (Z.leb_spec (2 ^ 2098) (m * 2 ^ t)) as [O|O]; [reflexivity | exfalso].
  destruct (Z.le_gt_cases 2046 t) as [Ht'|Ht'].
  - assert (Hp : 2 ^ 2046 <= 2 ^ t) by (apply Z.pow_le_mono_r; lia).
    rewrite E5 in O. try clearbody m; try clearbody D; try clearbody t; try clearbody N;
      clear - Hd O Hp Hm B6.
    generalize dependent (2 ^ 2046). generalize dependent (2 ^ t). intros. nia.
  - assert (Et : 2 ^ t = 2 * 2 ^ 2044).
    { replace t with 2045 by lia. exact E3. }
    assert (Hm' : 9007199254740992 <= m).
    { clear O Hm. subst m. unfold round_half_even.
      pose proof (Z.div_mod N D ltac:(lia)) as E.
      pose proof (Z.mod_pos_bound N D HD) as B.
      assert (HB' : D * 18014398509481983 <= 2 * N).
      { subst D. rewrite Et. try clearbody m; try clearbody D; try clearbody t; try clearbody N;
      clear - Hd HB BU.
        generalize dependent (2 ^ 2044). generalize dependent (Zpos d).
        intros. nia. }
      generalize dependent (N / D). generalize dependent (N mod D).
      intros r B f E.
      assert (9007199254740991 <= f) by nia.
      assert (f < 9007199254740992) by nia.
      destruct (Z.ltb_spec (2 * r) D); [nia|].
      destruct (Z.ltb_spec D (2 * r)); [lia|].
      replace f with 9007199254740991 by lia. cbn. lia. }
    rewrite E1, Et in O. try clearbody m; try clearbody D; try clearbody t; try clearbody N;
      clear - Hd O Hm' BU.
    generalize dependent (2 ^ 2044). intros. nia.
Qed.

Lemma Zpos_pow2_1074 : Zpos (2 ^ 1074)%positive = 2 ^ 1074.
Proof. apply Pos2Z.inj_pow. Qed.

Lemma round_double_pos_whole (n d : positive) (k : Z) :
  Zpos n = k * Zpos d -> k < 2 ^ 53 ->
  exists r, round_double_pos n d = Some r /\ (r == inject_Z k)%Q.
Proof.
  intros Hn Hk. name_rounding n d F.
  assert (Hd : 0 < Zpos d) by lia.
  change (2 ^ 53) with 9007199254740992 in Hk.
  assert (K0 : 0 < k) by nia.
  destruct F as (HN & T0 & P & HD & M0 & TU & TL).
  destruct format_powers as (E1 & _ & _ & _ & _ & E7 & _ & U & _).
  assert (EN : N = k * Zpos d * 2 ^ 1074) by (subst N; now rewrite Hn).
  assert (Ht : t <= 1074).
  { destruct (Z.le_gt_cases t 0); [lia|]. specialize (TL ltac:(lia)).
    assert (Hp : 2 ^ (t + 52) < 2 ^ 1127).
    { rewrite E7, pow2_52 by lia. subst D. rewrite EN in TL.
      assert (TL' : 2 ^ t * 4503599627370496 <= k * 2 ^ 1074).
      { apply (Z.mul_le_mono_pos_l _ _ (Zpos d)); [lia|].
        rewrite !Z.mul_assoc, (Z.mul_comm (Zpos d) k). exact TL. }
      try clearbody m; try clearbody D; try clearbody t; try clearbody N;
      clear - Hd TL' Hk K0 U P.
      generalize dependent (2 ^ 1074). generalize dependent (2 ^ t).
      intros. nia. }
    apply Z.pow_lt_mono_r_iff in Hp; lia. }
  assert (Es : 2 ^ 1074 = 2 ^ t * 2 ^ (1074 - t)).
  { rewrite <- pow2_split by lia. f_equal. lia. }
  assert (Em : m = k * 2 ^ (1074 - t)).
  { subst m. replace N with (D * (k * 2 ^ (1074 - t)))
      by (subst D; rewrite EN, Es; ring).
    now apply round_half_even_exact. }
  assert (Ev : m * 2 ^ t = k * 2 ^ 1074) by (rewrite Em, Es; ring).
  rewrite Ev.
  destruct (Z.leb_spec (2 ^ 2098) (k * 2 ^ 1074)) as [O|O].
  - exfalso.
    assert (E8 : 2 ^ 2098 = 2 ^ 1024 * 2 ^ 1074) by reflexivity.
    assert (L : 9007199254740992 < 2 ^ 1024) by reflexivity.
    rewrite E8 in O. try clearbody m; try clearbody D; try clearbody t; try clearbody N;
      clear - Hd O Hk U L.
    generalize dependent (2 ^ 1024). generalize dependent (2 ^ 1074).
    intros. nia.
  - eexists. split; [reflexivity|].
    rewrite Qred_correct. unfold Qeq, inject_Z; cbn [Qnum Qden].
    rewrite Zpos_pow2_1074. ring.
Qed.

(** In the normal range the rounded value is within [2^-53] of the
    quotient, relatively. *)
Lemma round_double_pos_accurate (n d : positive) (r : Q) :
  Zpos d * 2 ^ 52 <= Zpos n * 2 ^ 1074 ->
  round_double_pos n d = Some r ->
  (Qabs (r - (Zpos n # d)) <= (Zpos n # d) * (1 # 2 ^ 53))%Q.
Proof.
  intros Hnorm. name_rounding n d F.
  assert (Hd : 0 < Zpos d) by lia.
  destruct F as (HN & T0 & P & HD & M0 & TU & TL).
  destruct (Z.leb_spec (2 ^ 2098) (m * 2 ^ t)); [discriminate|].
  pose proof (Qred_correct (m * 2 ^ t # 2 ^ 1074)) as Hv.
  generalize dependent (Qred (m * 2 ^ t # 2 ^ 1074)).
  intros v Hv [= <-]. rewrite Hv. clear Hv v.
  pose proof (round_half_even_near N D ltac:(lia) HD) as Hnear. fold m in Hnear.
  assert (HDN : D * 4503599627370496 <= N).
  { destruct (Z.le_gt_cases t 0) as [Ht|Ht]; [|now apply TL].
    assert (t = 0) by lia. subst D. replace t with 0 by lia.
    change (2 ^ 0) with 1. change (2 ^ 52) with 4503599627370496 in Hnorm.
    fold N in Hnorm. lia. }
  apply Qabs_Qle_condition.
  unfold Qle, Qminus, Qplus, Qopp, Qmult; cbn [Qnum Qden].
  rewrite !Pos2Z.inj_mul, Zpos_pow2_1074.
  change (Zpos (2 ^ 53)) with 9007199254740992.
  subst D N. try clearbody m; try clearbody D; try clearbody t; try clearbody N;
      clear - Hd Hnear HDN P.
  generalize dependent (2 ^ 1074). generalize dependent (2 ^ t).
  generalize dependent (Zpos d). generalize dependent (Zpos n). intros.
  split; nia.
Qed.


Lemma format_is_normal_over_100 (p : positive) :
  100 * 2 ^ 52 <= Zpos p * 2 ^ 1074.
Proof.
  assert (L : 100 * 2 ^ 52 <= 2 ^ 1074) by (apply Z.leb_le; reflexivity).
  assert (U : 0 < 2 ^ 1074) by now apply Z.pow_pos_nonneg.
  generalize dependent (2 ^ 1074). generalize dependent (100 * 2 ^ 52).
  intros. nia.
Qed.

(** [n / 100] on an int whose quotient is below the largest double: the
    result is [round_double (n # 100)], within [2^-53] of the quotient,
    relatively. *)
Lemma int_truediv_100_in_range (n : Z) :
  Z.abs n < 100 * (2 ^ 1024 - 2 ^ 970) ->
  exists r,
    round_double (n # 100) = Some r
    /\ int_truediv_100 n = Ok (JFloat (FFinite r))
    /\ (Qabs (r - (n # 100)) <= Qabs (n # 100) * (1 # 2 ^ 53))%Q.
Proof.
  intros H. unfold int_truediv_100, round_double; cbn [Qnum Qden].
  destruct n as [|p|p].
  - exists 0%Q. repeat split. apply Z.leb_le. reflexivity.
  - destruct (round_double_pos_in_range p 100 H) as [r Hr].
    exists r. rewrite Hr. repeat split.
    rewrite (Qabs_pos (Zpos p # 100)) by (unfold Qle; cbn; lia).
    apply round_double_pos_accurate; [apply format_is_normal_over_100 | exact Hr].
  - destruct (round_double_pos_in_range p 100 H) as [r Hr].
    exists (- r)%Q. rewrite Hr. repeat split.
    pose proof (round_double_pos_accurate p 100 r
                  (format_is_normal_over_100 p) Hr) as A.
    assert (E1 : (- r - (Zneg p # 100) == - (r - (Zpos p # 100)))%Q).
    { change (Zneg p # 100)%Q with (- (Zpos p # 100))%Q. ring. }
    assert (E2 : (Qabs (Zneg p # 100) == (Zpos p # 100))%Q).
    { change (Zneg p # 100)%Q with (- (Zpos p # 100))%Q.
      rewrite Qabs_opp. apply Qabs_pos. unfold Qle; cbn; lia. }
    now rewrite E1, Qabs_opp, E2.
Qed.

(** Past the largest double the division raises. *)
Lemma int_truediv_100_overflow (n : Z) :
  100 * (2 ^ 1024 - 2 ^ 970) <= Z.abs n ->
  exists e, int_truediv_100 n = Raise e /\ cls e = OverflowError.
Proof.
  intros H. unfold int_truediv_100, round_double; cbn [Qnum Qden].
  destruct n as [|p|p].
  - exfalso. apply Z.leb_le in H. discriminate.
  - rewrite (round_double_pos_overflow p 100 H).
    eexists; split; reflexivity.
  - rewrite (round_double_pos_overflow p 100 H).
    eexists; split; reflexivity.
Qed.

(** A whole number of rupees below [2^53] comes back exactly. *)
Lemma int_truediv_100_whole (k : Z) :
  0 < k < 2 ^ 53 ->
  exists r, int_truediv_100 (k * 100) = Ok (JFloat (FFinite r))
            /\ (r == inject_Z k)%Q.
Proof.
  intros [K0 K1]. unfold int_truediv_100, round_double; cbn [Qnum Qden].
  destruct (k * 100) as [|p|p] eqn:E; [lia | | lia].
  destruct (round_double_pos_whole p 100 k (eq_sym E) K1) as (r & Hr & Hq).
  exists r. now rewrite Hr.
Qed.

Lemma py_truediv_100_error (v : json) (e : exn) :
  py_truediv_100 v = Raise e -> is_signature_error e = false.
Proof.
  unfold py_truediv_100, int_truediv_100.
  destruct v as [|b|n|f|s|l|o]; try (intros [= <-]; reflexivity);
    destruct (round_double _); intros [= <-]; reflexivity.
Qed.

(** ** The handlers *)

(** Both handlers end in [except Exception]: they always return a
    response. *)
Lemma create_order_returns (gw : Gateway) (data : json) (m : machine) :
  exists r, fst (create_order gw data m) = Ok r.
Proof.
  unfold create_order, try_except, internal_error, ret.
  destruct (create_order_body gw data m) as [[r|e] m']; simpl; eauto.
Qed.

Lemma verify_payment_returns (gw : Gateway) (data : json) (m : machine) :
  exists r, fst (verify_payment gw data m) = Ok r.
Proof.
  unfold verify_payment, try_except, internal_error, ret.
  destruct (verify_payment_body gw data m) as [[r|e] m']; simpl; eauto.
Qed.

(** A verification request whose three fields are present and true, whose
    signature the provider accepts and whose payment the provider returns
    with an amount that [/ 100] divides and a status. *)
Lemma verify_payment_verified (gw : Gateway) (m : machine) (d : dict)
    (order_id payment_id signature : json) (payment : dict)
    (paise rupees payment_status : json) :
  dict_get d "razorpay_order_id" = Some order_id ->
  dict_get d "razorpay_payment_id" = Some payment_id ->
  dict_get d "razorpay_signature" = Some signature ->
  py_all [order_id; payment_id; signature] = true ->
  verify_payment_signature gw (provider_log m)
    (params_dict order_id payment_id signature) = Ok tt ->
  payment_fetch gw
    (provider_log m
     ++ [VerifyPaymentSignature (params_dict order_id payment_id signature)])
    payment_id = Ok payment ->
  dict_get payment "amount" = Some paise ->
  py_truediv_100 paise = Ok rupees ->
  dict_get payment "status" = Some payment_status ->
  verify_payment gw (JObj d) m
  = (Ok (verified_response payment_id rupees payment_status),
     log_call (PaymentFetch payment_id)
       (log_call
          (VerifyPaymentSignature (params_dict order_id payment_id signature))
          m)).
Proof.
  intros Ho Hp Hs Hall Hsig Hfetch Ha Hdiv Hst.
  unfold verify_payment, verify_payment_body, try_except, bind, lift, py_get.
  rewrite Ho, Hp, Hs, Hall. cbn [negb].
  unfold verify_payment_inner, bind, lift, razorpay_verify_payment_signature,
    razorpay_payment_fetch, py_getitem.
  rewrite Hsig. cbn [log_call provider_log globals].
  rewrite Hfetch, Ha, Hst, Hdiv. reflexivity.
Qed.

(** C1. When the signature check and the payment fetch succeed, and the
    amount of the payment record is an integer whose hundredth is below
    the largest double, the amount in the response of [verify_payment] is
    that amount divided by 100: the double nearest to the quotient, which
    is within [2^-53] of it, relatively.  This holds after any history of
    requests, so whatever amounts were asked for in earlier create-order
    requests. *)
Theorem C1_verified_amount_is_provider_amount
    (gw : Gateway) (history : list request) (m0 : machine) (d : dict)
    (order_id payment_id signature : json) (payment : dict) (paise : Z)
    (payment_status : json) :
  dict_get d "razorpay_order_id" = Some order_id ->
  dict_get d "razorpay_payment_id" = Some payment_id ->
  dict_get d "razorpay_signature" = Some signature ->
  py_all [order_id; payment_id; signature] = true ->
  verify_payment_signature gw (provider_log (machine_after gw history m0))
    (params_dict order_id payment_id signature) = Ok tt ->
  payment_fetch gw
    (provider_log (machine_after gw history m0)
     ++ [VerifyPaymentSignature (params_dict order_id payment_id signature)])
    payment_id = Ok payment ->
  dict_get payment "amount" = Some (JInt paise) ->
  dict_get payment "status" = Some payment_status ->
  Z.abs paise < 100 * (2 ^ 1024 - 2 ^ 970) ->
  exists rupees,
    round_double (paise # 100) = Some rupees
    /\ (Qabs (rupees - (paise # 100)) <= Qabs (paise # 100) * (1 # 2 ^ 53))%Q
    /\ fst (verify_payment gw (JObj d) (machine_after gw history m0))
       = Ok (verified_response payment_id (JFloat (FFinite rupees))
               payment_status)
    /\ response_amount
         (fst (verify_payment gw (JObj d) (machine_after gw history m0)))
       = Some (JFloat (FFinite rupees)).
Proof.
  intros Ho Hp Hs Hall Hsig Hfetch Ha Hst Hrange.
  destruct (int_truediv_100_in_range paise Hrange) as (r & Hr & Hdiv & Hacc).
  exists r. split; [exact Hr|]. split; [exact Hacc|].
  rewrite (verify_payment_verified gw _ d _ _ _ payment (JInt paise)
             (JFloat (FFinite r)) payment_status
             Ho Hp Hs Hall Hsig Hfetch Ha Hdiv Hst).
  split; reflexivity.
Qed.

(** An order for 7 rupees was requested; the provider reports a payment of
    50000 paise; the verified amount is 50000/100 = 500. *)
Lemma C1_verified_amount_is_provider_amount_witness :
  exists rupees,
    round_double (50000 # 100) = Some rupees
    /\ response_amount
         (fst (verify_payment Sample.gateway
                 (Sample.verify_request "order_1" "sig_ok")
                 (machine_after Sample.gateway
                    [PostCreateOrder (Sample.order_request (JInt 7))]
                    Sample.fresh)))
       = Some (JFloat (FFinite rupees)).
Proof.
  destruct (C1_verified_amount_is_provider_amount
              Sample.gateway
              [PostCreateOrder (Sample.order_request (JInt 7))]
              Sample.fresh
              [ ("razorpay_order_id", JStr "order_1");
                ("razorpay_payment_id", JStr "pay_1");
                ("razorpay_signature", JStr "sig_ok") ]
              (JStr "order_1") (JStr "pay_1") (JStr "sig_ok")
              [ ("id", JStr "pay_1"); ("amount", JInt 50000);
                ("status", JStr "captured") ]
              50000 (JStr "captured")
              eq_refl eq_refl eq_refl eq_refl eq_refl eq_refl eq_refl
              eq_refl eq_refl)
    as (rupees & Hr & _ & _ & H).
  exists rupees. split; [exact Hr | exact H].
Defined.

(** A create-order request whose amount passes the guard and converts to
    [rupees], answered by the provider with an order that carries an id,
    an amount and a currency. *)
Lemma create_order_created (gw : Gateway) (m : machine) (d : dict)
    (amount : json) (rupees : Z) (order : dict)
    (order_id order_amount order_currency : json) :
  dict_get d "amount" = Some amount ->
  amount_guard amount = Ok false ->
  py_int_of amount = Ok rupees ->
  order_create gw (provider_log m) (order_data (rupees * 100) (upi_id_of d))
  = Ok order ->
  dict_get order "id" = Some order_id ->
  dict_get order "amount" = Some order_amount ->
  dict_get order "currency" = Some order_currency ->
  create_order gw (JObj d) m
  = (Ok (jsonify
           (JObj [ ("success", JBool true);
                   ("order_id", order_id);
                   ("amount", order_amount);
                   ("currency", order_currency);
                   ("razorpay_key_id",
                    json_of_option_string (RAZORPAY_KEY_ID (globals m))) ])),
     log_call (OrderCreate (order_data (rupees * 100) (upi_id_of d))) m).
Proof.
  intros Ha Hg Hi Hc Hid Hamt Hcur.
  unfold create_order, create_order_body, try_except, bind, lift, py_get.
  rewrite Ha, Hg, Hi. fold (upi_id_of d).
  unfold razorpay_order_create, py_getitem, read_global.
  rewrite Hc, Hid, Hamt, Hcur. reflexivity.
Qed.

(** C2, as stated, fails on the code.  An order for 5 rupees is created
    with success, and the state of the process after the call is the state
    before it: nothing has been stored.  No reading of stored intents out
    of the process state can meet the claim either: from the same fresh
    process an order of 5 and an order of 7 rupees both come back as
    "order_1" and leave the same state, which would have to hold an intent
    of 500 and of 700 minor units for that id. *)
Lemma C2_no_intent_is_stored :
  (fst (create_order Sample.gateway (Sample.order_request (JInt 5))
          Sample.fresh)
   = Ok (jsonify (JObj [ ("success", JBool true);
                         ("order_id", JStr "order_1");
                         ("amount", JInt 500);
                         ("currency", JStr "INR");
                         ("razorpay_key_id", JStr "rzp_test_key") ]))
   /\ globals (snd (create_order Sample.gateway
                      (Sample.order_request (JInt 5)) Sample.fresh))
      = globals Sample.fresh)
  /\ ~ (exists stored : process_state -> string -> option IntentSpec.PaymentIntent,
          forall amount, 0 < amount ->
            exists intent,
              stored
                (globals (snd (create_order Sample.gateway
                                 (Sample.order_request (JInt amount))
                                 Sample.fresh)))
                "order_1" = Some intent
              /\ IntentSpec.amountMinorUnits intent = amount * 100
              /\ IntentSpec.state intent = IntentSpec.Created).
Proof.
  split; [split; reflexivity|].
  intros [stored H].
  destruct (H 5 ltac:(lia)) as [i5 [E5 [A5 _]]].
  destruct (H 7 ltac:(lia)) as [i7 [E7 [A7 _]]].
  cbv in E5, E7. rewrite E5 in E7. injection E7 as <-. lia.
Qed.

(** C2, amended.  For an integer amount greater than 0, [create_order]
    asks the provider for an order of [amount * 100] minor units in INR;
    when the provider answers with an order, the response carries the
    provider's order id, amount and currency and the public key id, and
    the state of the process is left as it was: one provider call is
    logged and nothing is stored. *)
Theorem C2_order_created_nothing_stored
    (gw : Gateway) (m : machine) (d : dict) (amount : Z) (order : dict)
    (order_id order_amount order_currency : json) :
  dict_get d "amount" = Some (JInt amount) ->
  0 < amount ->
  order_create gw (provider_log m) (order_data (amount * 100) (upi_id_of d))
  = Ok order ->
  dict_get order "id" = Some order_id ->
  dict_get order "amount" = Some order_amount ->
  dict_get order "currency" = Some order_currency ->
  fst (create_order gw (JObj d) m)
  = Ok (jsonify
          (JObj [ ("success", JBool true);
                  ("order_id", order_id);
                  ("amount", order_amount);
                  ("currency", order_currency);
                  ("razorpay_key_id",
                   json_of_option_string (RAZORPAY_KEY_ID (globals m))) ]))
  /\ globals (snd (create_order gw (JObj d) m)) = globals m
  /\ provider_log (snd (create_order gw (JObj d) m))
     = (provider_log m
        ++ [OrderCreate (order_data (amount * 100) (upi_id_of d))])%list.
Proof.
  intros Ha Hpos Hc Hid Hamt Hcur.
  assert (Hg : amount_guard (JInt amount) = Ok false).
  { unfold amount_guard, py_truthy, py_le_zero.
    destruct (Z.eqb_spec amount 0); [lia|]. cbn [negb].
    destruct (Z.leb_spec amount 0); [lia | reflexivity]. }
  rewrite (create_order_created gw m d (JInt amount) amount order
             order_id order_amount order_currency Ha Hg eq_refl Hc Hid Hamt
             Hcur).
  repeat split.
Qed.

Lemma C2_order_created_nothing_stored_witness :
  provider_log (snd (create_order Sample.gateway
                       (Sample.order_request (JInt 5)) Sample.fresh))
  = [OrderCreate (order_data 500 (JStr "Not provided"))].
Proof.
  exact (proj2 (proj2 (C2_order_created_nothing_stored
                         Sample.gateway Sample.fresh [("amount", JInt 5)] 5
                         [ ("id", JStr "order_1"); ("amount", JInt 500);
                           ("currency", JStr "INR");
                           ("status", JStr "created") ]
                         (JStr "order_1") (JInt 500) (JStr "INR")
                         eq_refl eq_refl eq_refl eq_refl eq_refl eq_refl))).
Defined.

(** [verify_payment] assigns no module-level binding. *)
Lemma verify_payment_keeps_globals (gw : Gateway) (data : json) (m : machine) :
  globals (snd (verify_payment gw data m)) = globals m.
Proof.
  unfold verify_payment, verify_payment_body, try_except, bind, lift,
    internal_error, ret.
  destruct (py_get data "razorpay_order_id" JNull) as [o|e]; [|reflexivity].
  destruct (py_get data "razorpay_payment_id" JNull) as [p|e]; [|reflexivity].
  destruct (py_get data "razorpay_signature" JNull) as [s|e]; [|reflexivity].
  destruct (negb (py_all [o; p; s])); [reflexivity|].
  unfold verify_payment_inner, bind, lift, razorpay_verify_payment_signature,
    razorpay_payment_fetch, ret.
  destruct (verify_payment_signature gw _ _) as [[]|e]; cbn [log_call globals];
    [|destruct (is_signature_error e); reflexivity].
  destruct (payment_fetch gw _ _) as [pay|e]; cbn [log_call globals];
    [|destruct (is_signature_error e); reflexivity].
  repeat match goal with
         | |- context [py_getitem ?a ?b] =>
             destruct (py_getitem a b) as [?|?];
             [|destruct (is_signature_error _); reflexivity]
         | |- context [py_truediv_100 ?a] =>
             destruct (py_truediv_100 a) as [?|?];
             [|destruct (is_signature_error _); reflexivity]
         end.
  reflexivity.
Qed.

(** C3, as stated, fails on the code.  On a fresh process, where no order
    was ever created, a verification request for an order id is answered
    200 "verified", not rejected; and after an order was created and
    verified, the same verification request is answered 200 "verified"
    once more, not rejected as already finalized. *)
Lemma C3_unknown_and_finalized_orders_are_verified :
  fst (serve Sample.gateway
         [ PostVerifyPayment (Sample.verify_request "order_unheard_of" "sig_ok") ]
         Sample.fresh)
  = [ Ok (verified_response (JStr "pay_1") (JFloat (FFinite (500 # 1)))
            (JStr "captured")) ]
  /\ Sample.statuses
       (fst (serve Sample.gateway
               [ PostCreateOrder (Sample.order_request (JInt 500));
                 PostVerifyPayment (Sample.verify_request "order_1" "sig_ok");
                 PostVerifyPayment (Sample.verify_request "order_1" "sig_ok") ]
               Sample.fresh))
     = [ Some 200; Some 200; Some 200 ]
  /\ nth 2
       (fst (serve Sample.gateway
               [ PostCreateOrder (Sample.order_request (JInt 500));
                 PostVerifyPayment (Sample.verify_request "order_1" "sig_ok");
                 PostVerifyPayment (Sample.verify_request "order_1" "sig_ok") ]
               Sample.fresh))
       (Raise (Sample.provider_error ""))
     = Ok (verified_response (JStr "pay_1") (JFloat (FFinite (500 # 1)))
             (JStr "captured")).
Proof. repeat split; vm_compute; reflexivity. Qed.

(** C3, amended.  [verify_payment] looks nothing up: its response is a
    function of the request and of what the provider answers to the
    signature check and to the payment fetch.  Two processes, whatever
    requests each has served, answer the same request alike when the
    provider answers them alike; a response is always returned; and the
    state of the process is left unchanged. *)
Theorem C3_verification_depends_on_provider_only
    (gw1 gw2 : Gateway) (m1 m2 : machine) (data : json) :
  (forall params,
      verify_payment_signature gw1 (provider_log m1) params
      = verify_payment_signature gw2 (provider_log m2) params) ->
  (forall params payment_id,
      payment_fetch gw1 (provider_log m1 ++ [VerifyPaymentSignature params])
        payment_id
      = payment_fetch gw2 (provider_log m2 ++ [VerifyPaymentSignature params])
          payment_id) ->
  fst (verify_payment gw1 data m1) = fst (verify_payment gw2 data m2)
  /\ (exists r, fst (verify_payment gw1 data m1) = Ok r)
  /\ globals (snd (verify_payment gw1 data m1)) = globals m1.
Proof.
  intros Hsig Hfetch.
  split; [|split; [apply verify_payment_returns
                  | apply verify_payment_keeps_globals]].
  unfold verify_payment, verify_payment_body, try_except, bind, lift,
    internal_error, ret.
  destruct (py_get data "razorpay_order_id" JNull) as [o|e]; [|reflexivity].
  destruct (py_get data "razorpay_payment_id" JNull) as [p|e]; [|reflexivity].
  destruct (py_get data "razorpay_signature" JNull) as [s|e]; [|reflexivity].
  destruct (negb (py_all [o; p; s])); [reflexivity|].
  unfold verify_payment_inner, bind, lift, razorpay_verify_payment_signature,
    razorpay_payment_fetch, ret.
  rewrite (Hsig (params_dict o p s)).
  destruct (verify_payment_signature gw2 _ _) as [[]|e];
    cbn [log_call provider_log];
    [|destruct (is_signature_error e); reflexivity].
  rewrite (Hfetch (params_dict o p s) p).
  destruct (payment_fetch gw2 _ _) as [pay|e];
    [|destruct (is_signature_error e); reflexivity].
  repeat match goal with
         | |- context [py_getitem ?a ?b] =>
             destruct (py_getitem a b) as [?|?];
             [|destruct (is_signature_error _); reflexivity]
         | |- context [py_truediv_100 ?a] =>
             destruct (py_truediv_100 a) as [?|?];
             [|destruct (is_signature_error _); reflexivity]
         end.
  reflexivity.
Qed.

(** The same request, on a fresh process and on one that has already
    created and verified the order. *)
Lemma C3_verification_depends_on_provider_only_witness :
  fst (verify_payment Sample.gateway
         (Sample.verify_request "order_1" "sig_ok") Sample.fresh)
  = fst (verify_payment Sample.gateway
           (Sample.verify_request "order_1" "sig_ok")
           (machine_after Sample.gateway
              [ PostCreateOrder (Sample.order_request (JInt 500));
                PostVerifyPayment (Sample.verify_request "order_1" "sig_ok") ]
              Sample.fresh)).
Proof.
  exact (proj1 (C3_verification_depends_on_provider_only
                  Sample.gateway Sample.gateway Sample.fresh
                  (machine_after Sample.gateway
                     [ PostCreateOrder (Sample.order_request (JInt 500));
                       PostVerifyPayment
                         (Sample.verify_request "order_1" "sig_ok") ]
                     Sample.fresh)
                  (Sample.verify_request "order_1" "sig_ok")
                  (fun _ => eq_refl) (fun _ _ => eq_refl))).
Defined.

(** C8, as stated, fails on the code in its last part.  A verification
    with a wrong signature is answered 400 with [success = false], and
    the state of the process is left as it was: no intent is marked
    failed.  The order is not closed by it: the next request for the same
    order, with the right signature, is answered 200 "verified". *)
Lemma C8_no_intent_becomes_failed :
  fst (serve Sample.gateway
         [ PostCreateOrder (Sample.order_request (JInt 500));
           PostVerifyPayment (Sample.verify_request "order_1" "sig_forged");
           PostVerifyPayment (Sample.verify_request "order_1" "sig_ok") ]
         Sample.fresh)
  = [ Ok (jsonify (JObj [ ("success", JBool true);
                          ("order_id", JStr "order_1");
                          ("amount", JInt 50000);
                          ("currency", JStr "INR");
                          ("razorpay_key_id", JStr "rzp_test_key") ]));
      Ok signature_failed_response;
      Ok (verified_response (JStr "pay_1") (JFloat (FFinite (500 # 1)))
            (JStr "captured")) ]
  /\ globals
       (machine_after Sample.gateway
          [ PostCreateOrder (Sample.order_request (JInt 500));
            PostVerifyPayment (Sample.verify_request "order_1" "sig_forged") ]
          Sample.fresh)
     = globals
         (machine_after Sample.gateway
            [ PostCreateOrder (Sample.order_request (JInt 500)) ]
            Sample.fresh).
Proof. split; reflexivity. Qed.

(** C8, amended.  When the three fields are present and the provider's
    signature check raises [SignatureVerificationError], its report of a
    signature that does not match, [verify_payment] returns the response
    [{success: false, message}] with status 400, a returned value and not
    a fault.  When the check raises any other error (the Razorpay client
    does so on a signature it cannot compare), the answer is 500 with the
    text of the error.  In both cases the payment is not fetched, and the
    state of the process is left as it was (there is no intent to mark as
    failed). *)
Theorem C8_signature_mismatch_reported
    (gw : Gateway) (m : machine) (d : dict)
    (order_id payment_id signature : json) (e : exn) :
  dict_get d "razorpay_order_id" = Some order_id ->
  dict_get d "razorpay_payment_id" = Some payment_id ->
  dict_get d "razorpay_signature" = Some signature ->
  py_all [order_id; payment_id; signature] = true ->
  verify_payment_signature gw (provider_log m)
    (params_dict order_id payment_id signature) = Raise e ->
  fst (verify_payment gw (JObj d) m)
  = Ok (match cls e with
        | SignatureVerificationError =>
            {| body := JObj [ ("success", JBool false);
                              ("message",
                               JStr "Payment verification failed - Invalid signature") ];
               status := 400 |}
        | _ => {| body := JObj [("error", JStr (msg e))]; status := 500 |}
        end)
  /\ globals (snd (verify_payment gw (JObj d) m)) = globals m
  /\ provider_log (snd (verify_payment gw (JObj d) m))
     = (provider_log m
        ++ [VerifyPaymentSignature
              (params_dict order_id payment_id signature)])%list.
Proof.
  intros Ho Hp Hs Hall Hsig.
  unfold verify_payment, verify_payment_body, try_except, bind, lift, py_get.
  rewrite Ho, Hp, Hs, Hall. cbn [negb].
  unfold verify_payment_inner, bind, razorpay_verify_payment_signature,
    is_signature_error.
  rewrite Hsig. destruct (cls e); repeat split.
Qed.

Lemma C8_signature_mismatch_reported_witness :
  fst (verify_payment Sample.gateway
         (Sample.verify_request "order_1" "sig_forged") Sample.fresh)
  = Ok signature_failed_response.
Proof.
  exact (proj1 (C8_signature_mismatch_reported
                  Sample.gateway Sample.fresh
                  [ ("razorpay_order_id", JStr "order_1");
                    ("razorpay_payment_id", JStr "pay_1");
                    ("razorpay_signature", JStr "sig_forged") ]
                  (JStr "order_1") (JStr "pay_1") (JStr "sig_forged")
                  {| cls := SignatureVerificationError;
                     msg := "Razorpay Signature Verification Failed" |}
                  eq_refl eq_refl eq_refl eq_refl eq_refl)).
Defined.

(** C7.  The code breaks the claim on an amount that is not a number.
    The guard of line 159 answers 400 "Invalid amount" for the empty
    string, but on the amount ["abc"] its comparison with 0 raises and the
    handler answers 500 with the text of the [TypeError]; and the amount
    [true] is not rejected at all: an order of 100 minor units is
    requested from the provider. *)
Lemma C7_nonnumeric_amount_not_400 :
  create_order Sample.gateway (Sample.order_request (JStr "abc")) Sample.fresh
  = (Ok {| body :=
             JObj [ ("error",
                     JStr "'<=' not supported between instances of 'str' and 'int'") ];
           status := 500 |},
     Sample.fresh)
  /\ Sample.statuses
       [ fst (create_order Sample.gateway
                (Sample.order_request (JStr "abc")) Sample.fresh) ]
     <> [ Some 400 ]
  /\ create_order Sample.gateway (Sample.order_request (JStr "")) Sample.fresh
     = (Ok invalid_amount_response, Sample.fresh)
  /\ Sample.statuses
       [ fst (create_order Sample.gateway
                (Sample.order_request (JBool true)) Sample.fresh) ]
     = [ Some 200 ]
  /\ provider_log
       (snd (create_order Sample.gateway
               (Sample.order_request (JBool true)) Sample.fresh))
     = [ OrderCreate (order_data 100 (JStr "Not provided")) ].
Proof. repeat split. discriminate. Qed.

(** X23.  What [create_order] does with an amount it does not accept.  An
    amount that is absent or null, false, zero, an empty string, array or
    object, or a number that is at most 0, is answered 400 "Invalid
    amount".  An amount that is a non-empty string, array or object is
    answered 500 with the text of the [TypeError] that its comparison
    with 0 raises.  In both cases no provider call is made and the
    process is left as it was. *)
Theorem create_order_invalid_amount
    (gw : Gateway) (m : machine) (d : dict) (amount : json) :
  py_get (JObj d) "amount" JNull = Ok amount ->
  (absent_or_nonpositive amount = true ->
   create_order gw (JObj d) m
   = (Ok {| body := JObj [("error", JStr "Invalid amount")]; status := 400 |},
      m))
  /\ (nonempty_nonnumeric amount = true ->
      create_order gw (JObj d) m
      = (Ok {| body :=
                 JObj [ ("error",
                         JStr ("'<=' not supported between instances of '"
                               ++ type_name amount ++ "' and 'int'")) ];
               status := 500 |},
         m)).
Proof.
  intros Hget.
  unfold create_order, create_order_body, try_except, bind, lift.
  rewrite Hget. cbn [py_get].
  split; intros H.
  - assert (G : amount_guard amount = Ok true).
    { unfold amount_guard.
      destruct amount as [|b|n|[q| | |]|s|l|o]; cbn in H |- *;
        try discriminate; try reflexivity.
      - now destruct b.
      - destruct (n =? 0); cbn; [reflexivity | now rewrite H].
      - destruct (Qeq_bool q 0); cbn; [reflexivity | now rewrite H].
      - now destruct s.
      - now destruct l.
      - now destruct o. }
    rewrite G. reflexivity.
  - assert (G : amount_guard amount
                = Raise {| cls := TypeError;
                           msg := "'<=' not supported between instances of '"
                                  ++ type_name amount ++ "' and 'int'" |}).
    { unfold amount_guard.
      destruct amount as [|b|n|[q| | |]|s|l|o]; cbn in H |- *;
        try discriminate.
      - destruct s; [discriminate | reflexivity].
      - destruct l; [discriminate | reflexivity].
      - destruct o; [discriminate | reflexivity]. }
    rewrite G. reflexivity.
Qed.

Lemma create_order_invalid_amount_witness :
  create_order Sample.gateway (JObj [("upi_id", JStr "a@upi")]) Sample.fresh
  = (Ok invalid_amount_response, Sample.fresh)
  /\ create_order Sample.gateway (Sample.order_request (JInt (-3)))
       Sample.fresh
     = (Ok invalid_amount_response, Sample.fresh).
Proof.
  split.
  - exact (proj1 (create_order_invalid_amount Sample.gateway Sample.fresh
                    [("upi_id", JStr "a@upi")] JNull eq_refl) eq_refl).
  - exact (proj1 (create_order_invalid_amount Sample.gateway Sample.fresh
                    [("amount", JInt (-3))] (JInt (-3)) eq_refl) eq_refl).
Defined.

(** ** Conversion of the amount to minor units *)

Lemma trunc_inject_Z (n : Z) : trunc (inject_Z n) = n.
Proof. unfold trunc, inject_Z; simpl. apply Z.quot_1_r. Qed.

Lemma trunc_small (q : Q) : (0 < q)%Q -> (q < 1)%Q -> trunc q = 0.
Proof.
  unfold Qlt, trunc; destruct q as [n den]; simpl; intros H0 H1.
  apply Z.quot_small. lia.
Qed.

Lemma guard_accepts_positive (amount : json) (q : Q) :
  number_value amount = Some q ->
  (validation_accepts amount = true <-> (0 < q)%Q).
Proof.
  unfold validation_accepts, amount_guard.
  destruct amount as [|b|n|[x| | |]|s|l|o]; cbn; try discriminate;
    intros [= <-].
  - unfold Qlt, inject_Z; simpl.
    destruct (Z.eqb_spec n 0); cbn;
      [split; [discriminate | lia]|].
    destruct (Z.leb_spec n 0); split; try discriminate; try reflexivity; lia.
  - destruct (Qeq_bool x 0) eqn:E0; cbn.
    + apply Qeq_bool_iff in E0. split; [discriminate|].
      intros H. rewrite E0 in H. now apply Qlt_irrefl in H.
    + destruct (Qle_bool x 0) eqn:E1.
      * apply Qle_bool_iff in E1. split; [discriminate|].
        intros H. now apply Qlt_not_le in H.
      * split; [intros _ | reflexivity].
        apply Qnot_le_lt. intros H. apply Qle_bool_iff in H. congruence.
Qed.

Lemma py_int_of_number (amount : json) (q : Q) :
  number_value amount = Some q -> py_int_of amount = Ok (trunc q).
Proof.
  destruct amount as [|b|n|[x| | |]|s|l|o]; cbn; try discriminate;
    intros [= <-]; [now rewrite trunc_inject_Z | reflexivity].
Qed.

(** Once the guard and [int()] are passed the provider is called, once,
    whatever it answers. *)
Lemma create_order_calls_provider (gw : Gateway) (m : machine) (d : dict)
    (amount : json) (rupees : Z) :
  dict_get d "amount" = Some amount ->
  amount_guard amount = Ok false ->
  py_int_of amount = Ok rupees ->
  provider_log (snd (create_order gw (JObj d) m))
  = (provider_log m
     ++ [OrderCreate (order_data (rupees * 100) (upi_id_of d))])%list.
Proof.
  intros Ha Hg Hi.
  unfold create_order, create_order_body, try_except, bind, lift, py_get.
  rewrite Ha, Hg, Hi. fold (upi_id_of d).
  unfold razorpay_order_create, read_global, internal_error, ret.
  destruct (order_create gw _ _) as [order|e]; [|reflexivity].
  repeat match goal with
         | |- context [py_getitem ?a ?b] =>
             destruct (py_getitem a b) as [?|?]; [|reflexivity]
         end.
  reflexivity.
Qed.

(** C10, as stated, fails on the code.  The JSON number [1e400] reaches
    the handler as the float infinity.  It passes the guard of line 159,
    but [int()] raises on it: no order is sent to the provider, and the
    answer is 500.  So not every numeric amount that the validation
    accepts is converted to minor units. *)
Lemma C10_infinite_amount_sends_nothing :
  validation_accepts (JFloat FPosInf) = true
  /\ create_order Sample.gateway (Sample.order_request (JFloat FPosInf))
       Sample.fresh
     = (Ok {| body := JObj [ ("error",
                              JStr "cannot convert float infinity to integer") ];
              status := 500 |},
        Sample.fresh)
  /\ provider_log
       (snd (create_order Sample.gateway
               (Sample.order_request (JFloat FPosInf)) Sample.fresh))
     = [].
Proof. repeat split. Qed.

(** C10, amended.  For an amount that is an integer or a finite float,
    the guard of [create_order] lets it through exactly when it is greater
    than 0, and the order then requested from the provider is for
    [int(amount) * 100] minor units, [int] truncating toward zero.  An
    amount strictly between 0 and 1 passes the guard and the order
    requested is for 0 minor units.  A float that is NaN or infinity
    passes the guard too, but [int()] raises on it: nothing is sent, and
    the answer is 500 with the text of the error. *)
Theorem C10_amount_truncated_before_conversion
    (gw : Gateway) (m : machine) (d : dict) (amount : json) :
  dict_get d "amount" = Some amount ->
  (forall q,
      number_value amount = Some q ->
      (validation_accepts amount = true <-> (0 < q)%Q)
      /\ (validation_accepts amount = true ->
          py_int_of amount = Ok (Z.quot (Qnum q) (Zpos (Qden q)))
          /\ provider_log (snd (create_order gw (JObj d) m))
             = (provider_log m
                ++ [OrderCreate
                      (JObj [ ("amount",
                               JInt (Z.quot (Qnum q) (Zpos (Qden q)) * 100));
                              ("currency", JStr "INR");
                              ("payment_capture", JInt 1);
                              ("notes",
                               JObj [ ("upi_id",
                                       match dict_get d "upi_id" with
                                       | Some v => v
                                       | None => JStr "Not provided"
                                       end);
                                      ("payment_method",
                                       JStr "voice_payment") ]) ])])%list)
      /\ ((0 < q)%Q -> (q < 1)%Q ->
          validation_accepts amount = true
          /\ provider_log (snd (create_order gw (JObj d) m))
             = (provider_log m
                ++ [OrderCreate
                      (JObj [ ("amount", JInt 0);
                              ("currency", JStr "INR");
                              ("payment_capture", JInt 1);
                              ("notes",
                               JObj [ ("upi_id",
                                       match dict_get d "upi_id" with
                                       | Some v => v
                                       | None => JStr "Not provided"
                                       end);
                                      ("payment_method",
                                       JStr "voice_payment") ]) ])])%list))
  /\ (amount = JFloat FNaN \/ amount = JFloat FPosInf ->
      validation_accepts amount = true
      /\ exists e,
           py_int_of amount = Raise e
           /\ create_order gw (JObj d) m
              = (Ok {| body := JObj [("error", JStr (msg e))];
                       status := 500 |},
                 m)).
Proof.
  intros Ha. split.
  - intros q Hq.
    pose proof (guard_accepts_positive amount q Hq) as Hacc.
    pose proof (py_int_of_number amount q Hq) as Hint.
    assert (Hlog : validation_accepts amount = true ->
                   provider_log (snd (create_order gw (JObj d) m))
                   = (provider_log m
                      ++ [OrderCreate (order_data (trunc q * 100)
                                         (upi_id_of d))])%list).
    { intros Hv. apply (create_order_calls_provider gw m d amount); trivial.
      unfold validation_accepts in Hv.
      destruct (amount_guard amount) as [[|]|e]; try discriminate;
        reflexivity. }
    split; [exact Hacc|]. split.
    + intros Hv. split; [exact Hint | exact (Hlog Hv)].
    + intros H0 H1. pose proof (proj2 Hacc H0) as Hv.
      split; [exact Hv|].
      rewrite (Hlog Hv), (trunc_small q H0 H1). reflexivity.
  - intros Hf.
    unfold create_order, create_order_body, try_except, bind, lift, py_get.
    rewrite Ha.
    destruct Hf as [-> | ->]; (split; [reflexivity|]);
      eexists; split; reflexivity.
Qed.

(** Half a rupee: the guard lets it through and an order of 0 minor units
    is requested. *)
Lemma C10_amount_truncated_before_conversion_witness :
  validation_accepts (JFloat (FFinite (1 # 2))) = true
  /\ provider_log
       (snd (create_order Sample.gateway
               (Sample.order_request (JFloat (FFinite (1 # 2))))
               Sample.fresh))
     = [ OrderCreate
           (JObj [ ("amount", JInt 0);
                   ("currency", JStr "INR");
                   ("payment_capture", JInt 1);
                   ("notes", JObj [ ("upi_id", JStr "Not provided");
                                    ("payment_method", JStr "voice_payment") ]) ]) ].
Proof.
  exact (proj2 (proj2 (proj1 (C10_amount_truncated_before_conversion
                                Sample.gateway Sample.fresh
                                [("amount", JFloat (FFinite (1 # 2)))]
                                (JFloat (FFinite (1 # 2))) eq_refl)
                         (1 # 2) eq_refl))
           eq_refl eq_refl).
Defined.

(** ** The examples of the specification, run on the code *)

Example parse_pay_250_rupees :
  extract_amount "pay 250 rupees" = Ok (Some 250).
Proof. reflexivity. Qed.

Example parse_two_hundred_fifty :
  extract_amount "two hundred fifty" = Ok (Some 250).
Proof. reflexivity. Qed.

Example parse_capitals_and_punctuation :
  extract_amount "Two Hundred, FIFTY." = Ok (Some 250).
Proof. reflexivity. Qed.

Example parse_leading_zeros :
  extract_amount "code 007, then 12" = Ok (Some 7).
Proof. reflexivity. Qed.

Example half_rupee_order :
  fst (create_order Sample.gateway
         (Sample.order_request (JFloat (FFinite (1 # 2)))) Sample.fresh)
  = Ok (jsonify (JObj [ ("success", JBool true);
                        ("order_id", JStr "order_1");
                        ("amount", JInt 0);
                        ("currency", JStr "INR");
                        ("razorpay_key_id", JStr "rzp_test_key") ])).
Proof. reflexivity. Qed.

Example missing_fields_rejected :
  fst (verify_payment Sample.gateway
         (JObj [("razorpay_order_id", JStr "order_1")]) Sample.fresh)
  = Ok missing_details_response.
Proof. reflexivity. Qed.

Example body_not_an_object :
  fst (create_order Sample.gateway JNull Sample.fresh)
  = Ok {| body := JObj [("error",
                         JStr "'NoneType' object has no attribute 'get'")];
          status := 500 |}.
Proof. reflexivity. Qed.

(** * Further properties of the code *)

(** ** extract_amount *)

Lemma isdigit_value (c : ascii) :
  Str.isdigit c = true -> 0 <= digit_value c <= 9.
Proof.
  unfold Str.isdigit, Str.in_range, digit_value.
  rewrite andb_true_iff, !N.leb_le. lia.
Qed.

Lemma py_int_from_digits_nonneg (s : string) (acc : Z) :
  0 <= acc -> 0 <= py_int_from acc (Str.take_while Str.isdigit s).
Proof.
  revert acc; induction s as [|c r IH]; intros acc Hacc; simpl; [exact Hacc|].
  destruct (Str.isdigit c) eqn:Hc; simpl; [|exact Hacc].
  apply IH. pose proof (isdigit_value c Hc). lia.
Qed.

Lemma word_amount_positive (text : string) (v : Z) :
  word_amount text = Some v -> 0 < v.
Proof.
  unfold word_amount.
  destruct (fold_left loop_body _ _) as [total current].
  destruct (Z.ltb_spec 0 (total + current)); [|discriminate].
  now intros [= <-].
Qed.

Lemma digit_path_value (word_path : string -> option Z) (text : string)
    (a : option Z) :
  Str.has Str.isdigit text = true ->
  extract_amount_with word_path text = Ok a ->
  a = Some (py_int_from 0 (ParserSpec.first_digit_run text)).
Proof.
  intros D. rewrite (digit_path _ _ D). unfold py_int.
  destruct (_ <? _)%nat; [discriminate|]. now intros [= <-].
Qed.

(** X1. An amount returned by [extract_amount] is never negative, and it
    is 0 only when the text contains a digit. *)
Theorem extract_amount_nonneg (text : string) (v : Z) :
  extract_amount text = Ok (Some v) ->
  0 <= v /\ (v = 0 -> Str.has Str.isdigit text = true).
Proof.
  unfold extract_amount.
  destruct (Str.has Str.isdigit text) eqn:D.
  - intros H. apply (digit_path_value _ _ _ D) in H. injection H as ->.
    split; [|reflexivity].
    unfold ParserSpec.first_digit_run.
    apply py_int_from_digits_nonneg. lia.
  - rewrite (word_path_reached _ _ D). intros [= H].
    apply word_amount_positive in H. split; lia.
Qed.

Lemma extract_amount_nonneg_witness :
  extract_amount "minus -40 degrees" = Ok (Some 40) /\ 0 <= 40.
Proof.
  split; [reflexivity|].
  exact (proj1 (extract_amount_nonneg "minus -40 degrees" 40 eq_refl)).
Defined.

Lemma lower_char_digit (c : ascii) :
  Str.isdigit (Str.lower_char c) = Str.isdigit c
  /\ (Str.isdigit c = true -> Str.lower_char c = c).
Proof.
  destruct c as [[] [] [] [] [] [] [] []]; split; (reflexivity || discriminate).
Qed.

Lemma lower_char_idem (c : ascii) :
  Str.lower_char (Str.lower_char c) = Str.lower_char c.
Proof. destruct c as [[] [] [] [] [] [] [] []]; reflexivity. Qed.

Lemma lower_char_space (c : ascii) :
  Str.isspace (Str.lower_char c) = Str.isspace c.
Proof. destruct c as [[] [] [] [] [] [] [] []]; reflexivity. Qed.

Lemma lower_idem (s : string) : Str.lower (Str.lower s) = Str.lower s.
Proof.
  induction s as [|c r IH]; simpl; [reflexivity|].
  now rewrite lower_char_idem, IH.
Qed.

Lemma has_digit_lower (s : string) :
  Str.has Str.isdigit (Str.lower s) = Str.has Str.isdigit s.
Proof.
  induction s as [|c r IH]; simpl; [reflexivity|].
  now rewrite (proj1 (lower_char_digit c)), IH.
Qed.

Lemma take_digits_lower (s : string) :
  Str.take_while Str.isdigit (Str.lower s) = Str.take_while Str.isdigit s.
Proof.
  induction s as [|c r IH]; simpl; [reflexivity|].
  destruct (lower_char_digit c) as [E F]. rewrite E.
  destruct (Str.isdigit c); [|reflexivity].
  now rewrite (F eq_refl), IH.
Qed.

Lemma first_digit_run_lower (s : string) :
  ParserSpec.first_digit_run (Str.lower s) = ParserSpec.first_digit_run s.
Proof.
  unfold ParserSpec.first_digit_run.
  induction s as [|c r IH]; simpl; [reflexivity|].
  destruct (lower_char_digit c) as [E F]. rewrite E.
  destruct (Str.isdigit c) eqn:Hc; simpl.
  - rewrite E, Hc, (F eq_refl). f_equal. apply take_digits_lower.
  - exact IH.
Qed.

Lemma extract_amount_lower (text : string) :
  extract_amount (Str.lower text) = extract_amount text.
Proof.
  unfold extract_amount.
  destruct (Str.has Str.isdigit text) eqn:D.
  - rewrite (digit_path _ _ D).
    rewrite <- has_digit_lower in D.
    now rewrite (digit_path _ _ D), first_digit_run_lower.
  - rewrite (word_path_reached _ _ D).
    rewrite <- has_digit_lower in D.
    rewrite (word_path_reached _ _ D).
    unfold word_amount. now rewrite lower_idem.
Qed.

(** X2. [extract_amount] does not look at the case of letters: two texts
    with the same lowercase form give the same amount. *)
Theorem extract_amount_case_insensitive (a b : string) :
  Str.lower a = Str.lower b -> extract_amount a = extract_amount b.
Proof.
  intros H. rewrite <- (extract_amount_lower a), <- (extract_amount_lower b).
  now rewrite H.
Qed.

Lemma extract_amount_case_insensitive_witness :
  extract_amount "TWO Thousand and Fifty" = extract_amount "two thousand AND fifty".
Proof.
  exact (extract_amount_case_insensitive "TWO Thousand and Fifty"
           "two thousand AND fifty" eq_refl).
Defined.

Lemma has_append (p : ascii -> bool) (a b : string) :
  Str.has p (a ++ b) = Str.has p a || Str.has p b.
Proof.
  induction a as [|c r IH]; simpl; [reflexivity|].
  now rewrite IH, orb_assoc.
Qed.

Lemma take_while_all (p : ascii -> bool) (ds rest : string) :
  Str.has (fun c => negb (p c)) ds = false ->
  Str.take_while p rest = "" ->
  Str.take_while p (ds ++ rest) = ds.
Proof.
  intros Hds Hrest. induction ds as [|c r IH]; simpl in *; [exact Hrest|].
  apply orb_false_iff in Hds as [Hc Hr].
  apply negb_false_iff in Hc. rewrite Hc. f_equal. exact (IH Hr).
Qed.

Lemma drop_nondigits_prefix (pre s : string) :
  Str.has Str.isdigit pre = false ->
  Str.take_while Str.isdigit
    (Str.drop_while (fun c => negb (Str.isdigit c)) (pre ++ s))
  = Str.take_while Str.isdigit
      (Str.drop_while (fun c => negb (Str.isdigit c)) s).
Proof.
  induction pre as [|c r IH]; simpl; [reflexivity|].
  intros H. apply orb_false_iff in H as [Hc Hr]. rewrite Hc. simpl.
  exact (IH Hr).
Qed.

(** X3. The digit path reads one run of digits and nothing else: when the
    text is a digit-free prefix, then a non-empty numeral, then a rest
    that is empty or starts with a non-digit, the amount is the value of
    that numeral, if it has at most 4300 digits; a longer numeral makes
    [int()], and so [extract_amount], raise [ValueError].  A sign before
    the numeral, and a separator or a decimal part after it, are not part
    of the amount. *)
Theorem extract_amount_reads_one_numeral (pre ds rest : string) :
  Str.has Str.isdigit pre = false ->
  Str.is_empty ds = false ->
  Str.has (fun c => negb (Str.isdigit c)) ds = false ->
  Str.take_while Str.isdigit rest = "" ->
  ((String.length ds <= 4300)%nat ->
   extract_amount (pre ++ ds ++ rest) = Ok (Some (ParserSpec.base10_value ds)))
  /\ ((4300 < String.length ds)%nat ->
      exists e,
        extract_amount (pre ++ ds ++ rest) = Raise e /\ cls e = ValueError).
Proof.
  intros Hpre Hne Hds Hrest.
  assert (R : ParserSpec.first_digit_run (pre ++ ds ++ rest) = ds).
  { unfold ParserSpec.first_digit_run. rewrite (drop_nondigits_prefix _ _ Hpre).
    destruct ds as [|c r]; [discriminate|].
    simpl in Hds. apply orb_false_iff in Hds as [Hc Hr].
    apply negb_false_iff in Hc. cbn [append Str.drop_while]. rewrite Hc.
    cbn [negb Str.take_while]. rewrite Hc. f_equal.
    exact (take_while_all _ _ _ Hr Hrest). }
  assert (D : Str.has Str.isdigit (pre ++ ds ++ rest) = true).
  { rewrite !has_append. destruct ds as [|c r]; [discriminate|].
    simpl in Hds |- *. apply orb_false_iff in Hds as [Hc _].
    apply negb_false_iff in Hc. rewrite Hc. now rewrite orb_true_r. }
  unfold extract_amount. rewrite (digit_path _ _ D), R. split; intros L.
  - now rewrite (py_int_ok _ L), py_int_from_0_base10.
  - destruct (py_int_raises _ L) as (e & -> & He). now exists e.
Qed.

(** "Rs. -1,500.75 only" is read as 1. *)
Lemma extract_amount_reads_one_numeral_witness :
  extract_amount ("Rs. -" ++ "1" ++ ",500.75 only") = Ok (Some 1).
Proof.
  exact (proj1 (extract_amount_reads_one_numeral "Rs. -" "1" ",500.75 only"
                  eq_refl eq_refl eq_refl eq_refl)
           (proj1 (Nat.leb_le 1 4300) eq_refl)).
Defined.

Lemma space_not_digit (c : ascii) :
  Str.isspace c = true -> Str.isdigit c = false.
Proof. destruct c as [[] [] [] [] [] [] [] []]; (reflexivity || discriminate). Qed.

Lemma lower_append (a b : string) :
  Str.lower (a ++ b) = Str.lower a ++ Str.lower b.
Proof. induction a as [|c r IH]; simpl; [reflexivity | now rewrite IH]. Qed.

Lemma runs_from_append_sep (p : ascii -> bool) (a b run : string) (c : ascii) :
  p c = false ->
  Str.runs_from p run (a ++ String c b)
  = (Str.runs_from p run a ++ Str.runs p b)%list.
Proof.
  intros Hc. revert run; induction a as [|x r IH]; intros run; simpl.
  - now rewrite Hc.
  - destruct (p x); [apply IH|].
    now rewrite IH, app_assoc.
Qed.

Lemma split_append_space (a b : string) (c : ascii) :
  Str.isspace c = true ->
  Str.split (a ++ String c b) = (Str.split a ++ Str.split b)%list.
Proof.
  intros Hc. unfold Str.split, Str.runs.
  apply runs_from_append_sep. now rewrite Hc.
Qed.

Lemma fold_unrecognized (words : list string) (st : loop_state) :
  forallb (fun w => negb (recognized w)) words = true ->
  fold_left loop_body words st = st.
Proof.
  revert st; induction words as [|w ws IH]; intros st H; simpl in *;
    [reflexivity|].
  apply andb_true_iff in H as [Hw Hws]. rewrite (IH _ Hws).
  destruct st as [total current].
  unfold recognized in Hw. unfold loop_body; cbv zeta.
  now destruct (dict_get words_to_numbers (re_sub_punct w)).
Qed.

Lemma take_digits_append (a s : string) :
  Str.take_while Str.isdigit s = "" ->
  Str.take_while Str.isdigit (a ++ s) = Str.take_while Str.isdigit a.
Proof.
  intros Hs. induction a as [|c r IH]; simpl; [exact Hs|].
  destruct (Str.isdigit c); [now rewrite IH | reflexivity].
Qed.

Lemma first_digit_run_append (a s : string) :
  Str.has Str.isdigit a = true ->
  Str.take_while Str.isdigit s = "" ->
  ParserSpec.first_digit_run (a ++ s) = ParserSpec.first_digit_run a.
Proof.
  unfold ParserSpec.first_digit_run. intros Ha Hs.
  induction a as [|c r IH]; simpl in *; [discriminate|].
  destruct (Str.isdigit c) eqn:Hc; simpl.
  - rewrite Hc. f_equal. now apply take_digits_append.
  - exact (IH Ha).
Qed.

(** X4. Words that the lexicon does not know, put before or after a text
    and set off by whitespace, do not change the amount read from it. *)
Theorem extract_amount_ignores_filler (pre text post : string) (c1 c2 : ascii) :
  filler pre = true ->
  filler post = true ->
  Str.isspace c1 = true ->
  Str.isspace c2 = true ->
  extract_amount (pre ++ String c1 (text ++ String c2 post))
  = extract_amount text.
Proof.
  unfold filler. rewrite !andb_true_iff, !negb_true_iff.
  intros [Dpre Fpre] [Dpost Fpost] H1 H2.
  pose proof (space_not_digit _ H1) as N1.
  pose proof (space_not_digit _ H2) as N2.
  unfold extract_amount.
  destruct (Str.has Str.isdigit text) eqn:D.
  - assert (Dall : Str.has Str.isdigit
                     (pre ++ String c1 (text ++ String c2 post)) = true).
    { rewrite has_append. simpl. rewrite has_append, D.
      now rewrite !orb_true_r. }
    rewrite (digit_path _ _ Dall), (digit_path _ _ D).
    assert (R : ParserSpec.first_digit_run
                  (pre ++ String c1 (text ++ String c2 post))
                = ParserSpec.first_digit_run text).
    { unfold ParserSpec.first_digit_run at 1.
      rewrite (drop_nondigits_prefix _ _ Dpre).
      cbn [Str.drop_while]. rewrite N1. cbn [negb].
      apply first_digit_run_append; [exact D|].
      simpl. now rewrite N2. }
    now rewrite R.
  - assert (Dall : Str.has Str.isdigit
                     (pre ++ String c1 (text ++ String c2 post)) = false).
    { rewrite has_append. simpl. rewrite has_append. simpl.
      now rewrite Dpre, N1, D, N2, Dpost. }
    rewrite (word_path_reached _ _ Dall), (word_path_reached _ _ D).
    unfold word_amount.
    rewrite lower_append. cbn [Str.lower].
    rewrite lower_append. cbn [Str.lower].
    rewrite split_append_space by now rewrite lower_char_space.
    rewrite split_append_space by now rewrite lower_char_space.
    rewrite !fold_left_app.
    now rewrite (fold_unrecognized _ _ Fpre), (fold_unrecognized _ _ Fpost).
Qed.

Lemma extract_amount_ignores_filler_witness :
  extract_amount
    ("Please pay" ++ String " " ("two hundred" ++ String " " "rupees, thanks!"))
  = extract_amount "two hundred".
Proof.
  exact (extract_amount_ignores_filler "Please pay" "two hundred"
           "rupees, thanks!" " " " " eq_refl eq_refl eq_refl eq_refl).
Defined.

(** ** create_order *)

Ltac exists_outcome amount upi rupees Eg Ei :=
  eexists _, amount, upi, rupees;
  split; [reflexivity|];
  split; [reflexivity|];
  split; [reflexivity|];
  split; [exact Eg|];
  split; [exact Ei|].

Lemma create_order_outcomes (gw : Gateway) (data : json) (m : machine) :
  (exists r, create_order gw data m = (Ok r, m)
             /\ (r = invalid_amount_response \/ status r = 500))
  \/ (exists r amount upi_id rupees,
        create_order gw data m
        = (Ok r, log_call (OrderCreate (order_data (rupees * 100) upi_id)) m)
        /\ py_get data "amount" JNull = Ok amount
        /\ py_get data "upi_id" (JStr "Not provided") = Ok upi_id
        /\ amount_guard amount = Ok false
        /\ py_int_of amount = Ok rupees
        /\ (status r = 500
            \/ (exists order order_id order_amount order_currency,
                   order_create gw (provider_log m)
                     (order_data (rupees * 100) upi_id) = Ok order
                   /\ dict_get order "id" = Some order_id
                   /\ dict_get order "amount" = Some order_amount
                   /\ dict_get order "currency" = Some order_currency
                   /\ r = jsonify
                            (JObj [ ("success", JBool true);
                                    ("order_id", order_id);
                                    ("amount", order_amount);
                                    ("currency", order_currency);
                                    ("razorpay_key_id",
                                     json_of_option_string
                                       (RAZORPAY_KEY_ID (globals m))) ])))).
Proof.
  unfold create_order, create_order_body, try_except, bind, lift,
    internal_error, ret, razorpay_order_create, read_global, py_getitem.
  destruct (py_get data "amount" JNull) as [amount|e];
    [|left; eexists; split; [reflexivity | auto]].
  destruct (py_get data "upi_id" (JStr "Not provided")) as [upi|e];
    [|left; eexists; split; [reflexivity | auto]].
  destruct (amount_guard amount) as [[|]|e] eqn:Eg;
    try (left; eexists; split; [reflexivity | auto]).
  destruct (py_int_of amount) as [rupees|e] eqn:Ei;
    [|left; eexists; split; [reflexivity | auto]].
  right.
  destruct (order_create gw (provider_log m) (order_data (rupees * 100) upi))
    as [order|e] eqn:Ec;
    [|exists_outcome amount upi rupees Eg Ei; left; reflexivity].
  destruct (dict_get order "id") as [oid|] eqn:Eid;
    [|exists_outcome amount upi rupees Eg Ei; left; reflexivity].
  destruct (dict_get order "amount") as [oamt|] eqn:Eamt;
    [|exists_outcome amount upi rupees Eg Ei; left; reflexivity].
  destruct (dict_get order "currency") as [ocur|] eqn:Ecur;
    [|exists_outcome amount upi rupees Eg Ei; left; reflexivity].
  exists_outcome amount upi rupees Eg Ei.
  right. exists order, oid, oamt, ocur. repeat split; assumption.
Qed.

(** X5. Whatever the request and the provider, [create_order] answers 200,
    400 or 500; it leaves the module-level bindings alone; it calls the
    provider at most once, and only to create an order; a 400 answer means
    that the provider was not called. *)
Theorem create_order_call_discipline (gw : Gateway) (data : json) (m : machine) :
  exists r,
    fst (create_order gw data m) = Ok r
    /\ (status r = 200 \/ status r = 400 \/ status r = 500)
    /\ globals (snd (create_order gw data m)) = globals m
    /\ (provider_log (snd (create_order gw data m)) = provider_log m
        \/ exists minor_units upi_id,
             provider_log (snd (create_order gw data m))
             = (provider_log m
                ++ [OrderCreate (order_data minor_units upi_id)])%list)
    /\ (status r = 400 -> snd (create_order gw data m) = m).
Proof.
  destruct (create_order_outcomes gw data m)
    as [[r [E Hr]] | [r [amount [upi [rupees [E [_ [_ [_ [_ Hr]]]]]]]]]];
    rewrite E; exists r; cbn [fst snd log_call globals provider_log].
  - split; [reflexivity|]. split.
    + destruct Hr as [-> | ->]; cbn; tauto.
    + repeat split; auto.
  - split; [reflexivity|]. split.
    + destruct Hr as [-> | [o [i [a [c [_ [_ [_ [_ ->]]]]]]]]]; cbn; tauto.
    + split; [reflexivity|]. split; [right; eauto|].
      destruct Hr as [-> | [o [i [a [c [_ [_ [_ [_ ->]]]]]]]]]; cbn; discriminate.
Qed.

(** An amount of 0 is answered 400, so the machine is untouched. *)
Lemma create_order_call_discipline_witness :
  snd (create_order Sample.gateway (Sample.order_request (JInt 0)) Sample.fresh)
  = Sample.fresh.
Proof.
  destruct (create_order_call_discipline Sample.gateway
              (Sample.order_request (JInt 0)) Sample.fresh)
    as (r & E & _ & _ & _ & H).
  apply H. cbv in E. injection E as <-. reflexivity.
Defined.

(** X6. A 200 answer of [create_order] is only given for an order that the
    provider has created: the amount passed the guard, the provider was
    asked for [int(amount) * 100] minor units and answered with an order,
    and the id, amount and currency in the answer are the provider's. *)
Theorem create_order_success_is_provider_order
    (gw : Gateway) (data : json) (m : machine) (r : response) :
  fst (create_order gw data m) = Ok r ->
  status r = 200 ->
  exists amount upi_id rupees order order_id order_amount order_currency,
    py_get data "amount" JNull = Ok amount
    /\ validation_accepts amount = true
    /\ py_int_of amount = Ok rupees
    /\ order_create gw (provider_log m) (order_data (rupees * 100) upi_id)
       = Ok order
    /\ dict_get order "id" = Some order_id
    /\ dict_get order "amount" = Some order_amount
    /\ dict_get order "currency" = Some order_currency
    /\ body r = JObj [ ("success", JBool true);
                       ("order_id", order_id);
                       ("amount", order_amount);
                       ("currency", order_currency);
                       ("razorpay_key_id",
                        json_of_option_string (RAZORPAY_KEY_ID (globals m))) ]
    /\ provider_log (snd (create_order gw data m))
       = (provider_log m
          ++ [OrderCreate (order_data (rupees * 100) upi_id)])%list.
Proof.
  intros Hr H200.
  destruct (create_order_outcomes gw data m)
    as [[r' [E Hr']] | [r' [amount [upi [rupees [E [Ha [_ [Hg [Hi Hr']]]]]]]]]];
    rewrite E in Hr |- *; cbn [fst snd] in *; injection Hr as ->.
  - destruct Hr' as [-> | H5]; [discriminate | congruence].
  - destruct Hr' as [H5 | [order [oid [oamt [ocur [Ec [Eid [Eamt [Ecur ->]]]]]]]]];
      [congruence|].
    exists amount, upi, rupees, order, oid, oamt, ocur.
    unfold validation_accepts. rewrite Hg. repeat split; assumption.
Qed.

Lemma create_order_success_is_provider_order_witness :
  exists upi_id rupees,
    provider_log
      (snd (create_order Sample.gateway (Sample.order_request (JInt 12))
              Sample.fresh))
    = (provider_log Sample.fresh
       ++ [OrderCreate (order_data (rupees * 100) upi_id)])%list.
Proof.
  destruct (create_order_success_is_provider_order Sample.gateway
              (Sample.order_request (JInt 12)) Sample.fresh
              (jsonify (JObj [ ("success", JBool true);
                               ("order_id", JStr "order_1");
                               ("amount", JInt 1200);
                               ("currency", JStr "INR");
                               ("razorpay_key_id", JStr "rzp_test_key") ]))
              eq_refl eq_refl)
    as [amount [upi [rupees [order [oid [oamt [ocur H]]]]]]].
  exists upi, rupees. apply H.
Defined.

(** X7. When the provider's order call raises, [create_order] answers 500
    with the text of that error; the call was made once and is not made
    again. *)
Theorem create_order_provider_failure
    (gw : Gateway) (m : machine) (d : dict) (amount : json) (rupees : Z)
    (e : exn) :
  dict_get d "amount" = Some amount ->
  amount_guard amount = Ok false ->
  py_int_of amount = Ok rupees ->
  order_create gw (provider_log m) (order_data (rupees * 100) (upi_id_of d))
  = Raise e ->
  create_order gw (JObj d) m
  = (Ok {| body := JObj [("error", JStr (msg e))]; status := 500 |},
     {| globals := globals m;
        provider_log :=
          provider_log m
          ++ [OrderCreate (order_data (rupees * 100) (upi_id_of d))] |}).
Proof.
  intros Ha Hg Hi Hc.
  unfold create_order, create_order_body, try_except, bind, lift, py_get.
  rewrite Ha, Hg, Hi. fold (upi_id_of d).
  unfold razorpay_order_create. now rewrite Hc.
Qed.

Lemma create_order_provider_failure_witness :
  create_order Outage.gateway (Sample.order_request (JInt 3)) Sample.fresh
  = (Ok {| body := JObj [("error", JStr "Connection refused")];
           status := 500 |},
     {| globals := globals Sample.fresh;
        provider_log := [OrderCreate (order_data 300 (JStr "Not provided"))] |}).
Proof.
  exact (create_order_provider_failure Outage.gateway Sample.fresh
           [("amount", JInt 3)] (JInt 3) 3
           {| cls := ProviderError; msg := "Connection refused" |}
           eq_refl eq_refl eq_refl eq_refl).
Defined.

(** X8. An amount that is NaN or positive infinity passes the guard of
    line 159, but [int()] raises on it: the answer is 500 and the provider
    is not called. *)
Theorem create_order_non_finite_amount
    (gw : Gateway) (m : machine) (d : dict) (f : pyfloat) :
  dict_get d "amount" = Some (JFloat f) ->
  f = FNaN \/ f = FPosInf ->
  validation_accepts (JFloat f) = true
  /\ exists r, create_order gw (JObj d) m = (Ok r, m) /\ status r = 500.
Proof.
  intros Ha Hf.
  unfold create_order, create_order_body, try_except, bind, lift, py_get.
  rewrite Ha.
  destruct Hf as [-> | ->]; (split; [reflexivity|]);
    eexists; split; reflexivity.
Qed.

Lemma create_order_non_finite_amount_witness :
  exists r,
    create_order Sample.gateway (Sample.order_request (JFloat FNaN)) Sample.fresh
    = (Ok r, Sample.fresh)
    /\ status r = 500.
Proof.
  exact (proj2 (create_order_non_finite_amount Sample.gateway Sample.fresh
                  [("amount", JFloat FNaN)] FNaN eq_refl (or_introl eq_refl))).
Defined.

Lemma trunc_bounds (q : Q) :
  (0 < q)%Q ->
  0 <= trunc q
  /\ (inject_Z (trunc q) <= q)%Q
  /\ (q < inject_Z (trunc q + 1))%Q.
Proof.
  unfold Qlt, Qle, trunc, inject_Z; destruct q as [n den]; simpl.
  intros Hn. rewrite Z.mul_1_r in *.
  assert (0 <= n) by lia.
  rewrite Z.quot_div_nonneg by lia.
  pose proof (Z.mul_div_le n (Zpos den) ltac:(lia)).
  pose proof (Z.mul_succ_div_gt n (Zpos den) ltac:(lia)).
  pose proof (Z.div_pos n (Zpos den) ltac:(lia) ltac:(lia)).
  repeat split; lia.
Qed.

(** X9. For a float amount greater than 0 the order requested from the
    provider is for a whole number of rupees: [rupees * 100] minor units
    with [rupees <= amount < rupees + 1].  The fraction of a rupee is
    dropped, never rounded up. *)
Theorem create_order_drops_the_fraction
    (gw : Gateway) (m : machine) (d : dict) (q : Q) :
  dict_get d "amount" = Some (JFloat (FFinite q)) ->
  (0 < q)%Q ->
  exists rupees,
    provider_log (snd (create_order gw (JObj d) m))
    = (provider_log m
       ++ [OrderCreate (order_data (rupees * 100) (upi_id_of d))])%list
    /\ 0 <= rupees
    /\ (inject_Z rupees <= q)%Q
    /\ (q < inject_Z (rupees + 1))%Q.
Proof.
  intros Ha Hq. exists (trunc q).
  split; [|exact (trunc_bounds q Hq)].
  apply (create_order_calls_provider gw m d (JFloat (FFinite q)));
    [exact Ha | | reflexivity].
  pose proof (proj2 (guard_accepts_positive (JFloat (FFinite q)) q eq_refl) Hq)
    as Hv.
  unfold validation_accepts in Hv.
  destruct (amount_guard (JFloat (FFinite q))) as [[|]|e];
    try discriminate; reflexivity.
Qed.

(** 249.99 rupees are charged as 249. *)
Lemma create_order_drops_the_fraction_witness :
  exists rupees,
    provider_log
      (snd (create_order Sample.gateway
              (Sample.order_request (JFloat (FFinite (24999 # 100))))
              Sample.fresh))
    = [OrderCreate (order_data (rupees * 100) (JStr "Not provided"))]
    /\ 0 <= rupees.
Proof.
  destruct (create_order_drops_the_fraction Sample.gateway Sample.fresh
              [("amount", JFloat (FFinite (24999 # 100)))] (24999 # 100)
              eq_refl eq_refl) as [rupees [H1 [H2 _]]].
  exists rupees. split; [exact H1 | exact H2].
Defined.

(** X10. The amount read by [extract_amount], sent as it is to
    [create_order]: a positive amount is turned into an order of exactly
    [amount * 100] minor units; no amount, or the amount 0, is answered
    400 without a provider call. *)
Theorem extracted_amount_to_order
    (gw : Gateway) (m : machine) (d : dict) (text : string)
    (amount : option Z) :
  extract_amount text = Ok amount ->
  dict_get d "amount" = Some (json_of_amount amount) ->
  match amount with
  | Some v =>
      if 0 <? v
      then provider_log (snd (create_order gw (JObj d) m))
           = (provider_log m
              ++ [OrderCreate (order_data (v * 100) (upi_id_of d))])%list
      else create_order gw (JObj d) m = (Ok invalid_amount_response, m)
  | None => create_order gw (JObj d) m = (Ok invalid_amount_response, m)
  end.
Proof.
  intros _ Ha.
  destruct amount as [v|]; cbn [json_of_amount] in Ha.
  - destruct (Z.ltb_spec 0 v) as [Hpos|Hle].
    + apply (create_order_calls_provider gw m d (JInt v));
        [exact Ha | | reflexivity].
      unfold amount_guard, py_truthy, py_le_zero.
      destruct (Z.eqb_spec v 0); [lia|]. cbn [negb].
      destruct (Z.leb_spec v 0); [lia | reflexivity].
    + unfold create_order, create_order_body, try_except, bind, lift, py_get.
      rewrite Ha.
      assert (G : amount_guard (JInt v) = Ok true).
      { unfold amount_guard, py_truthy, py_le_zero.
        destruct (Z.eqb_spec v 0); cbn [negb]; [reflexivity|].
        destruct (Z.leb_spec v 0); [reflexivity | lia]. }
      now rewrite G.
  - unfold create_order, create_order_body, try_except, bind, lift, py_get.
    now rewrite Ha.
Qed.

(** "0 rupees" is read as 0 and refused; the order is never requested. *)
Lemma extracted_amount_to_order_witness :
  extract_amount "0 rupees" = Ok (Some 0)
  /\ create_order Sample.gateway (JObj [("amount", JInt 0)]) Sample.fresh
     = (Ok invalid_amount_response, Sample.fresh).
Proof.
  split; [reflexivity|].
  exact (extracted_amount_to_order Sample.gateway Sample.fresh
           [("amount", JInt 0)] "0 rupees" (Some 0) eq_refl eq_refl).
Defined.

(** ** verify_payment *)

Ltac exists_verified o p s Ho Hp Hs Hall :=
  eexists _, o, p, s;
  split; [reflexivity|];
  split; [first [exact Ho | reflexivity]|];
  split; [first [exact Hp | reflexivity]|];
  split; [first [exact Hs | reflexivity]|];
  split; [first [exact Hall | reflexivity]|].

Lemma verify_payment_outcomes (gw : Gateway) (data : json) (m : machine) :
  (exists r, verify_payment gw data m = (Ok r, m)
             /\ (r = missing_details_response \/ status r = 500))
  \/ (exists r o p s,
        verify_payment gw data m
        = (Ok r, log_call (VerifyPaymentSignature (params_dict o p s)) m)
        /\ py_get data "razorpay_order_id" JNull = Ok o
        /\ py_get data "razorpay_payment_id" JNull = Ok p
        /\ py_get data "razorpay_signature" JNull = Ok s
        /\ py_all [o; p; s] = true
        /\ exists e,
             verify_payment_signature gw (provider_log m) (params_dict o p s)
             = Raise e
             /\ r = answer_to e)
  \/ (exists r o p s,
        verify_payment gw data m
        = (Ok r,
           log_call (PaymentFetch p)
             (log_call (VerifyPaymentSignature (params_dict o p s)) m))
        /\ py_get data "razorpay_order_id" JNull = Ok o
        /\ py_get data "razorpay_payment_id" JNull = Ok p
        /\ py_get data "razorpay_signature" JNull = Ok s
        /\ py_all [o; p; s] = true
        /\ verify_payment_signature gw (provider_log m) (params_dict o p s)
           = Ok tt
        /\ ((exists e,
               payment_fetch gw
                 (provider_log m
                  ++ [VerifyPaymentSignature (params_dict o p s)]) p
               = Raise e
               /\ r = answer_to e)
            \/ (exists payment,
                  payment_fetch gw
                    (provider_log m
                     ++ [VerifyPaymentSignature (params_dict o p s)]) p
                  = Ok payment
                  /\ (status r = 500
                      \/ exists paise rupees payment_status,
                           dict_get payment "amount" = Some paise
                           /\ py_truediv_100 paise = Ok rupees
                           /\ dict_get payment "status" = Some payment_status
                           /\ r = verified_response p rupees payment_status)))).
Proof.
  unfold verify_payment, verify_payment_body, try_except, bind, lift,
    internal_error, ret.
  destruct (py_get data "razorpay_order_id" JNull) as [o|e] eqn:Ho;
    [|left; eexists; split; [reflexivity | auto]].
  destruct (py_get data "razorpay_payment_id" JNull) as [p|e] eqn:Hp;
    [|left; eexists; split; [reflexivity | auto]].
  destruct (py_get data "razorpay_signature" JNull) as [s|e] eqn:Hs;
    [|left; eexists; split; [reflexivity | auto]].
  destruct (py_all [o; p; s]) eqn:Hall; cbn [negb];
    [|left; eexists; split; [reflexivity | auto]].
  right.
  unfold verify_payment_inner, bind, lift, razorpay_verify_payment_signature,
    razorpay_payment_fetch, ret, py_getitem.
  destruct (verify_payment_signature gw (provider_log m) (params_dict o p s))
    as [[]|e] eqn:Hsig.
  - right. cbn [log_call provider_log globals].
    destruct (payment_fetch gw _ p) as [payment|e] eqn:Hf.
    + destruct (dict_get payment "amount") as [paise|] eqn:Ea.
      * destruct (py_truediv_100 paise) as [rupees|e] eqn:Ed.
        -- destruct (dict_get payment "status") as [st|] eqn:Est.
           ++ exists_verified o p s Ho Hp Hs Hall.
              split; [exact Hsig|]. right. exists payment.
              split; [exact Hf|]. right. exists paise, rupees, st.
              repeat split; assumption.
           ++ exists_verified o p s Ho Hp Hs Hall.
              split; [exact Hsig|]. right. exists payment.
              split; [exact Hf|]. left. reflexivity.
        -- rewrite (py_truediv_100_error _ _ Ed). exists_verified o p s Ho Hp Hs Hall.
           split; [exact Hsig|]. right. exists payment.
           split; [exact Hf|]. left. reflexivity.
      * exists_verified o p s Ho Hp Hs Hall.
        split; [exact Hsig|]. right. exists payment.
        split; [exact Hf|]. left. reflexivity.
    + exists (answer_to e), o, p, s. unfold answer_to.
      split; [now destruct (is_signature_error e)|].
      repeat split; try assumption; try reflexivity. left. exists e. split; [exact Hf | reflexivity].
  - left. exists (answer_to e), o, p, s. unfold answer_to.
    split; [now destruct (is_signature_error e)|].
    repeat split; try assumption; try reflexivity. exists e. split; [exact Hsig | reflexivity].
Qed.

Lemma answer_to_status (e : exn) :
  status (answer_to e) = 400 \/ status (answer_to e) = 500.
Proof. unfold answer_to. destruct (is_signature_error e); cbn; auto. Qed.

(** X11. Whatever the request and the provider, [verify_payment] answers
    200, 400 or 500 and leaves the module-level bindings alone.  It makes
    no provider call, or the signature check alone, or the signature check
    followed by the fetch of the payment; the payment is fetched only
    after the signature check has returned without raising. *)
Theorem verify_payment_call_discipline
    (gw : Gateway) (data : json) (m : machine) :
  exists r,
    fst (verify_payment gw data m) = Ok r
    /\ (status r = 200 \/ status r = 400 \/ status r = 500)
    /\ globals (snd (verify_payment gw data m)) = globals m
    /\ (provider_log (snd (verify_payment gw data m)) = provider_log m
        \/ (exists params,
              provider_log (snd (verify_payment gw data m))
              = (provider_log m ++ [VerifyPaymentSignature params])%list)
        \/ (exists params payment_id,
              provider_log (snd (verify_payment gw data m))
              = (provider_log m
                 ++ [VerifyPaymentSignature params; PaymentFetch payment_id])%list
              /\ verify_payment_signature gw (provider_log m) params = Ok tt)).
Proof.
  destruct (verify_payment_outcomes gw data m)
    as [(r & E & Hr)
       | [(r & o & p & s & E & _ & _ & _ & _ & e & _ & ->)
         | (r & o & p & s & E & _ & _ & _ & _ & Hsig & Hr)]];
    rewrite E; cbn [fst snd log_call globals provider_log].
  - exists r. split; [reflexivity|]. split.
    + destruct Hr as [-> | ->]; cbn; tauto.
    + split; [reflexivity | left; reflexivity].
  - exists (answer_to e). split; [reflexivity|]. split.
    + destruct (answer_to_status e); tauto.
    + split; [reflexivity | right; left; eauto].
  - exists r. split; [reflexivity|]. split.
    + destruct Hr as [(e & _ & ->) | (pay & _ & [-> | (a & b & c & _ & _ & _ & ->)])];
        [destruct (answer_to_status e) | | cbn]; tauto.
    + split; [reflexivity|]. right; right.
      exists (params_dict o p s), p. split; [|exact Hsig].
      now rewrite <- app_assoc.
Qed.

(** X12. A 200 answer of [verify_payment] is only given when the three
    fields were present and true, the provider accepted the signature
    computed over them and returned the payment; the answer then carries
    the payment id of the request, and the amount (divided by 100) and
    the status of the payment record. *)
Theorem verify_payment_success_is_provider_verified
    (gw : Gateway) (data : json) (m : machine) (r : response) :
  fst (verify_payment gw data m) = Ok r ->
  status r = 200 ->
  exists o p s payment paise rupees payment_status,
    py_get data "razorpay_order_id" JNull = Ok o
    /\ py_get data "razorpay_payment_id" JNull = Ok p
    /\ py_get data "razorpay_signature" JNull = Ok s
    /\ py_all [o; p; s] = true
    /\ verify_payment_signature gw (provider_log m) (params_dict o p s) = Ok tt
    /\ payment_fetch gw
         (provider_log m ++ [VerifyPaymentSignature (params_dict o p s)]) p
       = Ok payment
    /\ dict_get payment "amount" = Some paise
    /\ py_truediv_100 paise = Ok rupees
    /\ dict_get payment "status" = Some payment_status
    /\ r = verified_response p rupees payment_status.
Proof.
  intros Hr H200.
  destruct (verify_payment_outcomes gw data m)
    as [(r' & E & Hr')
       | [(r' & o & p & s & E & _ & _ & _ & _ & e & _ & ->)
         | (r' & o & p & s & E & Ho & Hp & Hs & Hall & Hsig & Hr')]];
    rewrite E in Hr; cbn [fst] in Hr; injection Hr as <-.
  - destruct Hr' as [-> | H5]; [discriminate | congruence].
  - destruct (answer_to_status e); congruence.
  - destruct Hr' as [(e & _ & ->)
                    | (pay & Hf & [H5 | (a & b & c & Ha & Hd & Hst & ->)])].
    + destruct (answer_to_status e); congruence.
    + congruence.
    + exists o, p, s, pay, a, b, c. repeat split; assumption.
Qed.

Lemma verify_payment_success_is_provider_verified_witness :
  exists o p s,
    verify_payment_signature Sample.gateway (provider_log Sample.fresh)
      (params_dict o p s) = Ok tt.
Proof.
  destruct (verify_payment_success_is_provider_verified Sample.gateway
              (Sample.verify_request "order_1" "sig_ok") Sample.fresh
              (verified_response (JStr "pay_1")
                 (JFloat (FFinite (500 # 1))) (JStr "captured"))
              eq_refl eq_refl)
    as (o & p & s & pay & a & b & c & _ & _ & _ & _ & H & _).
  exists o, p, s. exact H.
Defined.

(** X13. A verification request in which one of the three fields is
    absent, null or the empty string is answered 400 "Missing payment
    details", and the provider is not called. *)
Theorem verify_payment_missing_field
    (gw : Gateway) (m : machine) (d : dict) (k : string) :
  In k ["razorpay_order_id"; "razorpay_payment_id"; "razorpay_signature"] ->
  dict_get d k = None \/ dict_get d k = Some JNull
  \/ dict_get d k = Some (JStr "") ->
  verify_payment gw (JObj d) m
  = (Ok {| body := JObj [("error", JStr "Missing payment details")];
           status := 400 |},
     m).
Proof.
  intros Hk Hv.
  assert (F : py_truthy (match dict_get d k with Some v => v | None => JNull end)
              = false).
  { destruct Hv as [-> | [-> | ->]]; reflexivity. }
  unfold verify_payment, verify_payment_body, try_except, bind, lift, py_get,
    py_all.
  cbn [forallb].
  destruct Hk as [<- | [<- | [<- | []]]]; rewrite F;
    rewrite ?andb_false_r; reflexivity.
Qed.

Lemma verify_payment_missing_field_witness :
  verify_payment Sample.gateway
    (JObj [ ("razorpay_order_id", JStr "order_1");
            ("razorpay_payment_id", JStr "pay_1");
            ("razorpay_signature", JStr "") ])
    Sample.fresh
  = (Ok missing_details_response, Sample.fresh).
Proof.
  exact (verify_payment_missing_field Sample.gateway Sample.fresh
           [ ("razorpay_order_id", JStr "order_1");
             ("razorpay_payment_id", JStr "pay_1");
             ("razorpay_signature", JStr "") ]
           "razorpay_signature"
           (or_intror (or_intror (or_introl eq_refl)))
           (or_intror (or_intror eq_refl))).
Defined.

(** X14. When the signature is accepted and the fetch of the payment
    raises, [verify_payment] answers 500 with the text of the error; but a
    [SignatureVerificationError] raised by the fetch is answered like a
    wrong signature, 400, because the inner [try] covers the fetch too.
    Both provider calls have been made. *)
Theorem verify_payment_fetch_failure
    (gw : Gateway) (m : machine) (d : dict)
    (order_id payment_id signature : json) (e : exn) :
  dict_get d "razorpay_order_id" = Some order_id ->
  dict_get d "razorpay_payment_id" = Some payment_id ->
  dict_get d "razorpay_signature" = Some signature ->
  py_all [order_id; payment_id; signature] = true ->
  verify_payment_signature gw (provider_log m)
    (params_dict order_id payment_id signature) = Ok tt ->
  payment_fetch gw
    (provider_log m
     ++ [VerifyPaymentSignature (params_dict order_id payment_id signature)])
    payment_id = Raise e ->
  verify_payment gw (JObj d) m
  = (Ok (match cls e with
         | SignatureVerificationError => signature_failed_response
         | _ => {| body := JObj [("error", JStr (msg e))]; status := 500 |}
         end),
     {| globals := globals m;
        provider_log :=
          (provider_log m
           ++ [VerifyPaymentSignature
                 (params_dict order_id payment_id signature)])
          ++ [PaymentFetch payment_id] |}).
Proof.
  intros Ho Hp Hs Hall Hsig Hfetch.
  unfold verify_payment, verify_payment_body, try_except, bind, lift, py_get.
  rewrite Ho, Hp, Hs, Hall. cbn [negb].
  unfold verify_payment_inner, bind, razorpay_verify_payment_signature,
    razorpay_payment_fetch, is_signature_error.
  rewrite Hsig. cbn [log_call provider_log globals]. rewrite Hfetch.
  now destruct (cls e).
Qed.

Lemma verify_payment_fetch_failure_witness :
  fst (verify_payment Outage.gateway
         (Sample.verify_request "order_1" "sig_ok") Sample.fresh)
  = Ok {| body := JObj [("error", JStr "Connection refused")];
          status := 500 |}.
Proof.
  exact (f_equal fst
           (verify_payment_fetch_failure Outage.gateway Sample.fresh
              [ ("razorpay_order_id", JStr "order_1");
                ("razorpay_payment_id", JStr "pay_1");
                ("razorpay_signature", JStr "sig_ok") ]
              (JStr "order_1") (JStr "pay_1") (JStr "sig_ok")
              {| cls := ProviderError; msg := "Connection refused" |}
              eq_refl eq_refl eq_refl eq_refl eq_refl eq_refl)).
Defined.

(** ** Across requests *)

(** X15. Rupees to paise and back: an order for a whole amount greater
    than 0 is requested for [amount * 100] minor units, and, the amount
    being below [2^53] (so that a double holds it exactly), a payment of
    that many minor units is reported by [verify_payment] as an amount
    equal to the one asked for. *)
Theorem minor_units_round_trip
    (gw : Gateway) (m1 m2 : machine) (d1 d2 : dict) (amount : Z)
    (order_id payment_id signature : json) (payment : dict)
    (payment_status : json) :
  dict_get d1 "amount" = Some (JInt amount) ->
  0 < amount < 2 ^ 53 ->
  dict_get d2 "razorpay_order_id" = Some order_id ->
  dict_get d2 "razorpay_payment_id" = Some payment_id ->
  dict_get d2 "razorpay_signature" = Some signature ->
  py_all [order_id; payment_id; signature] = true ->
  verify_payment_signature gw (provider_log m2)
    (params_dict order_id payment_id signature) = Ok tt ->
  payment_fetch gw
    (provider_log m2
     ++ [VerifyPaymentSignature (params_dict order_id payment_id signature)])
    payment_id = Ok payment ->
  dict_get payment "amount" = Some (JInt (amount * 100)) ->
  dict_get payment "status" = Some payment_status ->
  provider_log (snd (create_order gw (JObj d1) m1))
  = (provider_log m1
     ++ [OrderCreate (order_data (amount * 100) (upi_id_of d1))])%list
  /\ exists q,
       response_amount (fst (verify_payment gw (JObj d2) m2))
       = Some (JFloat (FFinite q))
       /\ (q == inject_Z amount)%Q.
Proof.
  intros Ha Hpos Ho Hp Hs Hall Hsig Hfetch Hpa Hst. split.
  - apply (create_order_calls_provider gw m1 d1 (JInt amount));
      [exact Ha | | reflexivity].
    unfold amount_guard, py_truthy, py_le_zero.
    destruct (Z.eqb_spec amount 0); [lia|]. cbn [negb].
    destruct (Z.leb_spec amount 0); [lia | reflexivity].
  - destruct (int_truediv_100_whole amount Hpos) as (q & Hdiv & Hq).
    rewrite (verify_payment_verified gw m2 d2 _ _ _ payment
               (JInt (amount * 100)) (JFloat (FFinite q)) payment_status
               Ho Hp Hs Hall Hsig Hfetch Hpa Hdiv Hst).
    exists q. split; [reflexivity | exact Hq].
Qed.

Lemma minor_units_round_trip_witness :
  exists q,
    response_amount
      (fst (verify_payment Sample.gateway
              (Sample.verify_request "order_1" "sig_ok") Sample.fresh))
    = Some (JFloat (FFinite q))
    /\ (q == inject_Z 500)%Q.
Proof.
  exact (proj2 (minor_units_round_trip Sample.gateway Sample.fresh Sample.fresh
                  [("amount", JInt 500)]
                  [ ("razorpay_order_id", JStr "order_1");
                    ("razorpay_payment_id", JStr "pay_1");
                    ("razorpay_signature", JStr "sig_ok") ]
                  500 (JStr "order_1") (JStr "pay_1") (JStr "sig_ok")
                  [ ("id", JStr "pay_1"); ("amount", JInt 50000);
                    ("status", JStr "captured") ]
                  (JStr "captured")
                  eq_refl (conj eq_refl eq_refl) eq_refl eq_refl eq_refl
                  eq_refl eq_refl eq_refl eq_refl eq_refl)).
Defined.

Lemma handle_step (gw : Gateway) (req : request) (m : machine) :
  exists r calls,
    handle gw req m
    = (Ok r, {| globals := globals m;
                provider_log := (provider_log m ++ calls)%list |})
    /\ (List.length calls <= 2)%nat
    /\ (status r = 200 \/ status r = 400 \/ status r = 500).
Proof.
  destruct req as [data|data]; cbn [handle].
  - destruct (create_order_outcomes gw data m)
      as [(r & E & Hr) | (r & a & u & n & E & _ & _ & _ & _ & Hr)];
      rewrite E.
    + exists r, []. rewrite app_nil_r. destruct m.
      repeat split; [cbn; lia|]. destruct Hr as [-> | ->]; cbn; tauto.
    + exists r, [OrderCreate (order_data (n * 100) u)].
      repeat split; [cbn; lia|].
      destruct Hr as [-> | (o & i & x & c & _ & _ & _ & _ & ->)]; cbn; tauto.
  - destruct (verify_payment_outcomes gw data m)
      as [(r & E & Hr)
         | [(r & o & p & s & E & _ & _ & _ & _ & e & _ & ->)
           | (r & o & p & s & E & _ & _ & _ & _ & _ & Hr)]];
      rewrite E.
    + exists r, []. rewrite app_nil_r. destruct m.
      repeat split; [cbn; lia|]. destruct Hr as [-> | ->]; cbn; tauto.
    + exists (answer_to e), [VerifyPaymentSignature (params_dict o p s)].
      repeat split; [cbn; lia|]. destruct (answer_to_status e); tauto.
    + exists r, [VerifyPaymentSignature (params_dict o p s); PaymentFetch p].
      unfold log_call; cbn [globals provider_log]. rewrite <- app_assoc.
      repeat split; [cbn; lia|].
      destruct Hr as [(e & _ & ->)
                     | (pay & _ & [-> | (a & b & c & _ & _ & _ & ->)])];
        [destruct (answer_to_status e) | | cbn]; tauto.
Qed.

Lemma serve_steps (gw : Gateway) (history : list request) (m : machine) :
  exists rs calls,
    serve gw history m
    = (rs, {| globals := globals m;
              provider_log := (provider_log m ++ calls)%list |})
    /\ (List.length calls <= 2 * List.length history)%nat
    /\ List.length rs = List.length history
    /\ Forall (fun r => exists x,
                   r = Ok x
                   /\ (status x = 200 \/ status x = 400 \/ status x = 500)) rs.
Proof.
  revert m; induction history as [|req rest IH]; intros m.
  - exists [], []. cbn. rewrite app_nil_r. destruct m. repeat split; auto.
  - cbn [serve].
    destruct (handle_step gw req m) as (r & c1 & E1 & L1 & S1). rewrite E1.
    destruct (IH {| globals := globals m;
                    provider_log := (provider_log m ++ c1)%list |})
      as (rs & c2 & E2 & L2 & N2 & F2).
    rewrite E2. cbn [globals provider_log].
    exists (Ok r :: rs), (c1 ++ c2)%list. rewrite app_assoc.
    repeat split.
    + rewrite List.length_app. cbn [List.length]. lia.
    + cbn [List.length]. now rewrite N2.
    + constructor; [eauto | exact F2].
Qed.

(** X16. A process that serves any sequence of create-order and
    verify-payment requests answers each of them, with status 200, 400 or
    500 and never with a fault; its module-level bindings stay what they
    were; the log of provider calls only grows, by at most two calls per
    request. *)
Theorem serve_invariants (gw : Gateway) (history : list request) (m : machine) :
  globals (machine_after gw history m) = globals m
  /\ (exists calls,
         provider_log (machine_after gw history m)
         = (provider_log m ++ calls)%list
         /\ (List.length calls <= 2 * List.length history)%nat)
  /\ List.length (fst (serve gw history m)) = List.length history
  /\ Forall (fun r => exists x,
                 r = Ok x
                 /\ (status x = 200 \/ status x = 400 \/ status x = 500))
       (fst (serve gw history m)).
Proof.
  unfold machine_after.
  destruct (serve_steps gw history m) as (rs & calls & E & L & N & F).
  rewrite E. cbn [fst snd globals provider_log].
  repeat split; eauto.
Qed.

(** X17. The key id that a successful [create_order] puts in its answer
    is the one [get_razorpay_key] gives, whatever requests the process has
    served in between. *)
Theorem key_id_is_the_same_on_both_routes
    (gw : Gateway) (history : list request) (m : machine) (data : json)
    (r : response) :
  fst (create_order gw data (machine_after gw history m)) = Ok r ->
  status r = 200 ->
  response_member "razorpay_key_id" (Ok r)
  = response_member "key_id" (fst (get_razorpay_key m))
  /\ response_member "key_id" (fst (get_razorpay_key m))
     = Some (json_of_option_string (RAZORPAY_KEY_ID (globals m))).
Proof.
  intros Hr H200. split; [|reflexivity].
  destruct (create_order_outcomes gw data (machine_after gw history m))
    as [(r' & E & Hr') | (r' & a & u & n & E & _ & _ & _ & _ & Hr')];
    rewrite E in Hr; cbn [fst] in Hr; injection Hr as <-.
  - destruct Hr' as [-> | H5]; [discriminate | congruence].
  - destruct Hr' as [H5 | (o & i & x & c & _ & _ & _ & _ & ->)]; [congruence|].
    unfold machine_after.
    destruct (serve_steps gw history m) as (rs & calls & Es & _).
    rewrite Es. reflexivity.
Qed.

Lemma key_id_is_the_same_on_both_routes_witness :
  response_member "key_id" (fst (get_razorpay_key Sample.fresh))
  = Some (JStr "rzp_test_key").
Proof.
  exact (proj2 (key_id_is_the_same_on_both_routes Sample.gateway
                  [ PostVerifyPayment (Sample.verify_request "order_1" "sig_ok") ]
                  Sample.fresh (Sample.order_request (JInt 2))
                  (jsonify (JObj [ ("success", JBool true);
                                   ("order_id", JStr "order_1");
                                   ("amount", JInt 200);
                                   ("currency", JStr "INR");
                                   ("razorpay_key_id", JStr "rzp_test_key") ]))
                  eq_refl eq_refl)).
Defined.

(** ** health_check and the start of the script *)

Lemma option_string_truthy (o : option string) :
  py_truthy (json_of_option_string o) = true
  <-> exists s, o = Some s /\ s <> "".
Proof.
  destruct o as [[|c s]|]; cbn; split;
    try discriminate; try (intros (s' & [= <-] & H); congruence);
    try (intros (s' & [=] & _)).
  intros _. eexists; split; [reflexivity | discriminate].
Qed.

(** X18. [health_check] always answers 200 and reports
    [razorpay_configured] as true exactly when both the key id and the key
    secret are set to non-empty strings; an unset variable and an empty
    one are both reported as not configured. *)
Theorem health_check_configured (m : machine) :
  exists configured,
    health_check m
    = (Ok {| body := JObj [ ("status", JStr "ok");
                            ("whisper_model", JStr "whisper-base");
                            ("razorpay_configured", JBool configured) ];
             status := 200 |},
       m)
    /\ (configured = true
        <-> exists key_id key_secret,
              RAZORPAY_KEY_ID (globals m) = Some key_id
              /\ RAZORPAY_KEY_SECRET (globals m) = Some key_secret
              /\ key_id <> "" /\ key_secret <> "").
Proof.
  eexists. split; [reflexivity|].
  unfold py_and.
  destruct (py_truthy (json_of_option_string (RAZORPAY_KEY_ID (globals m))))
    eqn:K.
  - apply option_string_truthy in K as (k & Ek & Nk).
    rewrite option_string_truthy. split.
    + intros (s & Es & Ns). now exists k, s.
    + intros (k' & s & _ & Es & _ & Ns). now exists s.
  - rewrite K. split; [discriminate|].
    intros (k & s & Ek & _ & Nk & _).
    assert (T : py_truthy (json_of_option_string (RAZORPAY_KEY_ID (globals m)))
                = true) by (apply option_string_truthy; eauto).
    congruence.
Qed.

Lemma health_check_configured_witness :
  exists configured,
    fst (health_check Sample.fresh)
    = Ok (jsonify (JObj [ ("status", JStr "ok");
                          ("whisper_model", JStr "whisper-base");
                          ("razorpay_configured", JBool configured) ]))
    /\ configured = true.
Proof.
  destruct (health_check_configured Sample.fresh) as (b & E & H).
  exists b. split; [now rewrite E|].
  apply H. exists "rzp_test_key", "secret".
  repeat split; discriminate.
Defined.

Lemma starts_with_spec (needle s : string) :
  starts_with needle s = true <-> exists rest, s = needle ++ rest.
Proof.
  revert s; induction needle as [|a n IH]; intros s; simpl.
  - split; [intros _; now exists s | reflexivity].
  - destruct s as [|b s'].
    + split; [discriminate | intros (rest & [=])].
    + rewrite andb_true_iff, Ascii.eqb_eq, IH. split.
      * intros (-> & rest & ->). now exists rest.
      * intros (rest & [= -> ->]). split; [reflexivity | now exists rest].
Qed.

(** [str_contains] is the substring test of Python's [in]. *)
Lemma str_contains_spec (needle s : string) :
  str_contains needle s = true
  <-> exists before after, s = before ++ needle ++ after.
Proof.
  induction s as [|c s IH]; simpl.
  - rewrite orb_false_r, starts_with_spec. split.
    + intros (rest & E). now exists "", rest.
    + intros ([|b before] & after & E); [now exists after | discriminate].
  - rewrite orb_true_iff, starts_with_spec, IH. split.
    + intros [(rest & E) | (before & after & E)].
      * now exists "", rest.
      * exists (String c before), after. simpl. now rewrite E.
    + intros ([|b before] & after & E).
      * left. now exists after.
      * right. simpl in E. injection E as _ E. now exists before, after.
Qed.

(** X19. Run as a script, the file reaches [app.run] only when the key id
    is set and, unless the key id holds the placeholder "YOUR_KEY", the
    key secret is set too: with an unset variable the placeholder test of
    line 261 raises [TypeError].  Placeholder credentials do not stop the
    start: they only make the warning appear. *)
Theorem main_block_start (g : process_state) :
  (RAZORPAY_KEY_ID g = None ->
   exists e, main_block g = Raise e /\ cls e = TypeError)
  /\ (forall key_id,
         RAZORPAY_KEY_ID g = Some key_id ->
         (exists before after, key_id = before ++ "YOUR_KEY" ++ after) ->
         main_block g = Ok StartedWithWarning)
  /\ (forall key_id,
         RAZORPAY_KEY_ID g = Some key_id ->
         ~ (exists before after, key_id = before ++ "YOUR_KEY" ++ after) ->
         RAZORPAY_KEY_SECRET g = None ->
         exists e, main_block g = Raise e /\ cls e = TypeError)
  /\ (forall key_id key_secret,
         RAZORPAY_KEY_ID g = Some key_id ->
         RAZORPAY_KEY_SECRET g = Some key_secret ->
         ~ (exists before after, key_id = before ++ "YOUR_KEY" ++ after) ->
         main_block g
         = Ok (if str_contains "YOUR_SECRET" key_secret
               then StartedWithWarning else StartedQuietly)).
Proof.
  unfold main_block, placeholder_credentials, py_in.
  repeat split.
  - intros ->. eexists; split; reflexivity.
  - intros k -> H. apply str_contains_spec in H. now rewrite H.
  - intros k -> H ->.
    destruct (str_contains "YOUR_KEY" k) eqn:C;
      [apply str_contains_spec in C; contradiction|].
    eexists; split; reflexivity.
  - intros k s -> -> H.
    destruct (str_contains "YOUR_KEY" k) eqn:C;
      [apply str_contains_spec in C; contradiction|].
    now destruct (str_contains "YOUR_SECRET" s).
Qed.

(** The environment of a fresh checkout: neither variable is set. *)
Lemma main_block_start_witness :
  exists e,
    main_block {| RAZORPAY_KEY_ID := None; RAZORPAY_KEY_SECRET := None |}
    = Raise e
    /\ cls e = TypeError.
Proof.
  exact (proj1 (main_block_start
                  {| RAZORPAY_KEY_ID := None; RAZORPAY_KEY_SECRET := None |})
           eq_refl).
Defined.

(** ** transcribe_audio *)

Lemma extract_amount_lower_bound (text : string) (v : Z) :
  extract_amount text = Ok (Some v) -> 0 <= v.
Proof.
  unfold extract_amount.
  destruct (Str.has Str.isdigit text) eqn:D.
  - intros H. apply (digit_path_value _ _ _ D) in H. injection H as ->.
    unfold ParserSpec.first_digit_run.
    apply py_int_from_digits_nonneg. lia.
  - rewrite (word_path_reached _ _ D). intros [= H].
    apply word_amount_positive in H. lia.
Qed.



(** X21. The temporary file is unlinked only when the upload was saved to
    it: a request without an "audio" file is answered 400 before any file
    is created, and when creating the file or saving the upload raises,
    the answer is 500 and no unlink is attempted (a file created with
    [delete=False] then stays behind). *)
Theorem transcribe_audio_unlink_only_after_save
    (rt : Runtime) (files : list (string * audio)) (path : string) :
  In (Unlink path) (snd (transcribe_audio rt files)) ->
  exists audio_file,
    dict_get files "audio" = Some audio_file
    /\ named_temporary_file rt = Ok path
    /\ file_save rt audio_file path = Ok tt
    /\ status (fst (transcribe_audio rt files)) <> 400.
Proof.
  unfold transcribe_audio.
  destruct (dict_get files "audio") as [a|]; [|intros []].
  destruct (named_temporary_file rt) as [p|e] eqn:Ht;
    [|cbn; intros [H|[]]; discriminate].
  destruct (file_save rt a p) as [[]|e] eqn:Hs;
    [|cbn; intros [H|[H|[]]]; discriminate].
  intros H.
  assert (path = p).
  { destruct (os_unlink rt p) as [[]|e];
      [destruct (model_transcribe rt p a) as [text|e];
       [destruct (extract_amount text)|]|];
      cbn [snd In] in H;
      destruct H as [H|[H|[H|[H|[]]]]]; try discriminate; now injection H. }
  subst p. exists a. repeat split; trivial.
  destruct (os_unlink rt path) as [[]|e];
    [destruct (model_transcribe rt path a) as [text|e];
     [destruct (extract_amount text)|]|];
    cbn; discriminate.
Qed.

Lemma transcribe_audio_unlink_only_after_save_witness :
  exists audio_file,
    dict_get [("audio", "RIFF....WAVE")] "audio" = Some audio_file
    /\ file_save (Outage.runtime "five hundred") audio_file "/tmp/tmpab12.wav"
       = Ok tt.
Proof.
  destruct (transcribe_audio_unlink_only_after_save
              (Outage.runtime "five hundred") [("audio", "RIFF....WAVE")]
              "/tmp/tmpab12.wav"
              (or_intror (or_intror (or_intror (or_introl eq_refl)))))
    as (a & Ha & _ & Hs & _).
  exists a. split; [exact Ha | exact Hs].
Defined.

(** X22. [transcribe_audio] answers 200, 400 or 500.  It answers 400
    exactly when the request has no "audio" file.  A 200 answer carries
    the text the model returned for the saved file and the amount
    [extract_amount] returned for that text, which is [null] or an
    integer that is not negative. *)
Theorem transcribe_audio_answer (rt : Runtime) (files : list (string * audio)) :
  (status (fst (transcribe_audio rt files)) = 200
   \/ status (fst (transcribe_audio rt files)) = 400
   \/ status (fst (transcribe_audio rt files)) = 500)
  /\ (status (fst (transcribe_audio rt files)) = 400
      <-> dict_get files "audio" = None)
  /\ (status (fst (transcribe_audio rt files)) = 200 ->
      exists audio_file temp_path transcribed_text amount,
        dict_get files "audio" = Some audio_file
        /\ named_temporary_file rt = Ok temp_path
        /\ model_transcribe rt temp_path audio_file = Ok transcribed_text
        /\ extract_amount transcribed_text = Ok amount
        /\ fst (transcribe_audio rt files)
           = transcribe_response transcribed_text amount
        /\ (amount = None \/ exists v, amount = Some v /\ 0 <= v)).
Proof.
  unfold transcribe_audio.
  destruct (dict_get files "audio") as [a|];
    [|cbn; repeat split; auto; discriminate].
  destruct (named_temporary_file rt) as [p|e];
    [|cbn; repeat split; auto; discriminate].
  destruct (file_save rt a p) as [[]|e];
    [|cbn; repeat split; auto; discriminate].
  destruct (os_unlink rt p) as [[]|e];
    [|cbn; repeat split; auto; discriminate].
  destruct (model_transcribe rt p a) as [t|e] eqn:Hm;
    [|cbn; repeat split; auto; discriminate].
  destruct (extract_amount t) as [amount|e] eqn:Hx;
    [|cbn; repeat split; auto; discriminate].
  cbn [fst snd transcribe_response jsonify status].
  repeat split; auto; try discriminate.
  intros _. exists a, p, t, amount. repeat split; [exact Hm | exact Hx |].
  destruct amount as [v|]; [right | now left].
  exists v. split; [reflexivity | exact (extract_amount_lower_bound t v Hx)].
Qed.

Lemma transcribe_audio_answer_witness :
  exists audio_file temp_path transcribed_text amount,
    dict_get [("audio", "RIFF....WAVE")] "audio" = Some audio_file
    /\ named_temporary_file (Outage.runtime "Pay 1,500 rupees") = Ok temp_path
    /\ model_transcribe (Outage.runtime "Pay 1,500 rupees") temp_path audio_file
       = Ok transcribed_text
    /\ extract_amount transcribed_text = Ok amount
    /\ fst (transcribe_audio (Outage.runtime "Pay 1,500 rupees")
              [("audio", "RIFF....WAVE")])
       = transcribe_response transcribed_text amount
    /\ (amount = None \/ exists v, amount = Some v /\ 0 <= v).
Proof.
  exact (proj2 (proj2 (transcribe_audio_answer
                         (Outage.runtime "Pay 1,500 rupees")
                         [("audio", "RIFF....WAVE")]))
           eq_refl).
Defined.

Example transcribe_thousands_separator :
  fst (transcribe_audio (Outage.runtime "Pay 1,500 rupees")
         [("audio", "RIFF....WAVE")])
  = {| body := JObj [ ("success", JBool true);
                      ("text", JStr "Pay 1,500 rupees");
                      ("amount", JInt 1) ];
       status := 200 |}.
Proof. reflexivity. Qed.

Example transcribe_full_disk :
  transcribe_audio Outage.full_disk_runtime [("audio", "RIFF....WAVE")]
  = ({| body := JObj [("error", JStr "No space left on device")];
        status := 500 |},
     [NamedTemporaryFile; Save "/tmp/tmpab12.wav"]).
Proof. reflexivity. Qed.

(** ** The limits of the number formats *)

(** X24. When the first maximal run of digits of the text has more than
    4300 digits, [int()] refuses it and [extract_amount] raises
    [ValueError]; the text of the error gives the number of digits. *)
Theorem extract_amount_numeral_too_long (text : string) :
  Str.has Str.isdigit text = true ->
  (4300 < String.length (ParserSpec.first_digit_run text))%nat ->
  extract_amount text
  = Raise {| cls := ValueError;
             msg := "Exceeds the limit (4300 digits) for integer string conversion: value has "
                    ++ decimal_of_nat
                         (String.length (ParserSpec.first_digit_run text))
                    ++ " digits; use sys.set_int_max_str_digits() to increase the limit" |}.
Proof.
  intros D L. unfold extract_amount. rewrite (digit_path _ _ D).
  unfold py_int.
  destruct (Nat.ltb_spec int_max_str_digits
              (String.length (ParserSpec.first_digit_run text)));
    [reflexivity|].
  unfold int_max_str_digits in *. lia.
Qed.

Lemma nines_length (n : nat) : String.length (Edge.nines n) = n.
Proof. induction n as [|n IH]; simpl; [reflexivity | now rewrite IH]. Qed.

Lemma extract_amount_numeral_too_long_witness :
  exists e,
    extract_amount (Edge.nines 4301) = Raise e /\ cls e = ValueError.
Proof.
  eexists. split.
  - refine (extract_amount_numeral_too_long (Edge.nines 4301) _ _).
    + vm_compute. reflexivity.
    + apply Nat.ltb_lt. vm_compute. reflexivity.
  - reflexivity.
Defined.

(** X25. When the signature is accepted and the payment record carries an
    integer amount whose hundredth is [2^1024 - 2^970] or more in absolute
    value, the division of line 224 raises [OverflowError] and
    [verify_payment] answers 500, after both provider calls, whatever the
    status of the payment. *)
Theorem verify_payment_amount_overflow
    (gw : Gateway) (m : machine) (d : dict)
    (order_id payment_id signature : json) (payment : dict) (paise : Z) :
  dict_get d "razorpay_order_id" = Some order_id ->
  dict_get d "razorpay_payment_id" = Some payment_id ->
  dict_get d "razorpay_signature" = Some signature ->
  py_all [order_id; payment_id; signature] = true ->
  verify_payment_signature gw (provider_log m)
    (params_dict order_id payment_id signature) = Ok tt ->
  payment_fetch gw
    (provider_log m
     ++ [VerifyPaymentSignature (params_dict order_id payment_id signature)])
    payment_id = Ok payment ->
  dict_get payment "amount" = Some (JInt paise) ->
  100 * (2 ^ 1024 - 2 ^ 970) <= Z.abs paise ->
  verify_payment gw (JObj d) m
  = (Ok {| body := JObj [ ("error",
                           JStr "integer division result too large for a float") ];
           status := 500 |},
     {| globals := globals m;
        provider_log :=
          (provider_log m
           ++ [VerifyPaymentSignature
                 (params_dict order_id payment_id signature)])
          ++ [PaymentFetch payment_id] |}).
Proof.
  intros Ho Hp Hs Hall Hsig Hfetch Ha Hbig.
  assert (Hdiv : py_truediv_100 (JInt paise)
                 = Raise {| cls := OverflowError;
                            msg := "integer division result too large for a float" |}).
  { cbn [py_truediv_100]. unfold int_truediv_100, round_double.
    cbn [Qnum Qden].
    destruct paise as [|p|p].
    - exfalso. apply Z.leb_le in Hbig. discriminate.
    - now rewrite (round_double_pos_overflow p 100 Hbig).
    - now rewrite (round_double_pos_overflow p 100 Hbig). }
  unfold verify_payment, verify_payment_body, try_except, bind, lift, py_get.
  rewrite Ho, Hp, Hs, Hall. cbn [negb].
  unfold verify_payment_inner, bind, lift, razorpay_verify_payment_signature,
    razorpay_payment_fetch, py_getitem.
  rewrite Hsig. cbn [log_call provider_log globals].
  rewrite Hfetch, Ha, Hdiv. reflexivity.
Qed.

Lemma verify_payment_amount_overflow_witness :
  fst (verify_payment (Edge.gateway_reporting (10 ^ 400))
         (Sample.verify_request "order_1" "sig_ok") Sample.fresh)
  = Ok {| body := JObj [ ("error",
                          JStr "integer division result too large for a float") ];
          status := 500 |}.
Proof.
  refine (f_equal fst
            (verify_payment_amount_overflow (Edge.gateway_reporting (10 ^ 400))
               Sample.fresh
               [ ("razorpay_order_id", JStr "order_1");
                 ("razorpay_payment_id", JStr "pay_1");
                 ("razorpay_signature", JStr "sig_ok") ]
               (JStr "order_1") (JStr "pay_1") (JStr "sig_ok")
               [ ("id", JStr "pay_1"); ("amount", JInt (10 ^ 400));
                 ("status", JStr "captured") ]
               (10 ^ 400)
               eq_refl eq_refl eq_refl eq_refl eq_refl eq_refl eq_refl _)).
  apply Z.leb_le. vm_compute. reflexivity.
Defined.

Example division_rounds_to_nearest :
  round_double (12345 # 100) = Some (8687021468732621 # 70368744177664)
  /\ round_double (1 # 100) = Some (5764607523034235 # 576460752303423488)
  /\ round_double (50000 # 100) = Some (500 # 1).
Proof. repeat split; vm_compute; reflexivity. Qed.

Example division_ties_to_even :
  round_double ((2 ^ 53 + 1) * 100 # 100) = Some (9007199254740992 # 1)
  /\ round_double ((2 ^ 53 + 3) * 100 # 100) = Some (9007199254740996 # 1).
Proof. repeat split; vm_compute; reflexivity. Qed.

Example largest_amount_divided :
  (exists r, round_double (100 * (2 ^ 1024 - 2 ^ 970) - 1 # 100) = Some r)
  /\ round_double (100 * (2 ^ 1024 - 2 ^ 970) # 100) = None.
Proof.
  split; [eexists|]; vm_compute; reflexivity.
Qed.

Example numeral_of_4300_digits :
  extract_amount ("pay " ++ Edge.nines 4300) = Ok (Some (10 ^ 4300 - 1)).
Proof. vm_compute. reflexivity. Qed.

Example numeral_of_4301_digits :
  extract_amount ("pay " ++ Edge.nines 4301)
  = Raise {| cls := ValueError;
             msg := "Exceeds the limit (4300 digits) for integer string conversion: value has 4301 digits; use sys.set_int_max_str_digits() to increase the limit" |}.
Proof. vm_compute. reflexivity. Qed.

Example transcribe_numeral_of_4301_digits :
  status (fst (transcribe_audio (Outage.runtime (Edge.nines 4301))
                 [("audio", "RIFF....WAVE")]))
  = 500.
Proof. vm_compute. reflexivity. Qed.

Example verify_rounds_large_amount :
  response_amount
    (fst (verify_payment (Edge.gateway_reporting ((2 ^ 53 + 1) * 100))
            (Sample.verify_request "order_1" "sig_ok") Sample.fresh))
  = Some (JFloat (FFinite (9007199254740992 # 1))).
Proof. vm_compute. reflexivity. Qed.
